(** * The CrewAI dashboard WebSocket client

    A shallow embedding of [dashboard/js/websocket-client.js] (class
    [CrewAIDashboardClient]) and the properties of its connection life
    cycle, message dispatch and view-model updates.

    The client is a JavaScript class living in a browser.  Its methods are
    embedded as computations in a state-and-exception monad over a [World]
    that holds what the methods read and write:

    - the object's own fields ([Client]);
    - the page ([Document]), which is the client's view model: the methods
      store every received metric in DOM nodes and nowhere else;
    - the console, the WebSocket objects created so far with their
      [readyState], the messages handed to the network and the timers
      registered with [setInterval] and [setTimeout].

    What the browser does between two callbacks (delivering [open],
    [message], [error] and [close] events, firing timers) is the [step]
    relation of the last part of the embedding. *)

From Stdlib Require Import Ascii.
From stdpp Require Import gmap strings list pretty.

Set Warnings "-register-all".

(** ** JavaScript values *)

(** The result of [JSON.parse]: [num] is the type of numbers, left abstract
    (see [JsNumber]).  [JObj] lists the own properties of the object in
    enumeration order, each name once. *)
Inductive json (num : Type) : Type :=
  | JNull
  | JBool (b : bool)
  | JNum (n : num)
  | JStr (s : string)
  | JArr (items : list (json num))
  | JObj (fields : list (string * json num)).

Arguments JNull {num}.
Arguments JBool {num} b.
Arguments JNum {num} n.
Arguments JStr {num} s.
Arguments JArr {num} items.
Arguments JObj {num} fields.

(** A value read from a property: [None] is [undefined]. *)
Definition jsval (num : Type) : Type := option (json num).

(** The exceptions of the client's code.  [Unmodelled] is not one of them:
    it marks a run that leaves what this embedding describes (a selector
    text that may be more than one quoted attribute value, markup assigned
    to [innerHTML]).  Past that point the embedding says nothing of the
    code. *)
Inductive JsError := TypeError | SyntaxError | Unmodelled.

Inductive outcome (A : Type) : Type :=
  | Ok (a : A)
  | Throw (e : JsError).

Arguments Ok {A} a.
Arguments Throw {A} e.

(** What the client needs from JavaScript numbers.  JSON text denotes finite
    numbers only, so there is no NaN among [num]; the falsy numbers are the
    two zeros, and both print as 0.0 under [toFixed(1)]. *)
Class JsNumber (num : Type) := {
  num_zero : num;
  num_one : num;
  num_truthy : num → bool;              (* ToBoolean *)
  num_ge80 : num → bool;                (* n >= 80 *)
  num_toString : num → string;          (* ToString *)
  num_toFixed1 : num → string;          (* n.toFixed(1) *)
  num_round : num → string;             (* ToString(Math.round(n)) *)
  num_of_string : string → option num;  (* ToNumber on strings; None is NaN *)
  num_zero_falsy : num_truthy num_zero = false;
  num_falsy_toFixed1 :
    ∀ n, num_truthy n = false → num_toFixed1 n = num_toFixed1 num_zero
}.

Section JsValues.
Context {num : Type} `{JsNumber num}.

(** The text of a value: what ToString returns when it returns (see
    [ToString]), and how the console is taken to print an argument. *)
Fixpoint toString (v : json num) : string :=
  match v with
  | JNull => "null"
  | JBool true => "true"
  | JBool false => "false"
  | JNum n => num_toString n
  | JStr s => s
  | JArr items =>
      String.concat ","
        (map (λ x, match x with JNull => "" | _ => toString x end) items)
  | JObj _ => "[object Object]"
  end.

Definition toStringU (v : jsval num) : string :=
  match v with
  | None => "undefined"
  | Some v => toString v
  end.

(** The string stored by [node.textContent = v]: null and undefined give
    the empty string. *)
Definition textOf (v : jsval num) : string :=
  match v with
  | None | Some JNull => ""
  | Some v => toString v
  end.

(** ToBoolean. *)
Definition truthy (v : json num) : bool :=
  match v with
  | JNull => false
  | JBool b => b
  | JNum n => num_truthy n
  | JStr s => bool_decide (s ≠ "")
  | JArr _ | JObj _ => true
  end.

Definition truthyU (v : jsval num) : bool :=
  match v with
  | None => false
  | Some v => truthy v
  end.

Fixpoint assoc (k : string) (fs : list (string * json num)) : jsval num :=
  match fs with
  | [] => None
  | (k', v) :: fs => if bool_decide (k' = k) then Some v else assoc k fs
  end.

(** [v.k] for the property names the client reads: reading a property of
    null throws; strings, numbers, booleans and arrays have none of
    these names. *)
Definition getProp (v : json num) (k : string) : outcome (jsval num) :=
  match v with
  | JNull => Throw TypeError
  | JObj fs => Ok (assoc k fs)
  | _ => Ok None
  end.

(** [Object.entries(v)]: arrays and strings are enumerated by index. *)
Definition objectEntries (v : json num) : outcome (list (string * json num)) :=
  match v with
  | JNull => Throw TypeError
  | JObj fs => Ok fs
  | JArr items => Ok (imap (λ i x, (pretty i, x)) items)
  | JStr s =>
      Ok (imap (λ i c, (pretty i, JStr (String c EmptyString)))
               (String.list_ascii_of_string s))
  | JBool _ | JNum _ => Ok []
  end.

(** [v.toFixed(1)]: only numbers have the method. *)
Definition callToFixed1 (v : jsval num) : outcome string :=
  match v with
  | Some (JNum n) => Ok (num_toFixed1 n)
  | _ => Throw TypeError
  end.

(** ToNumber; [None] is NaN. *)
Definition toNumber (v : jsval num) : option num :=
  match v with
  | None => None
  | Some JNull => Some num_zero
  | Some (JBool b) => Some (if b then num_one else num_zero)
  | Some (JNum n) => Some n
  | Some (JStr s) => num_of_string s
  | Some v => num_of_string (toString v)
  end.

(** ToString(Math.round(v)). *)
Definition mathRound (v : jsval num) : string :=
  match toNumber v with
  | Some n => num_round n
  | None => "NaN"
  end.

(** [v === 'lit'] for a string literal. *)
Definition isStr (v : jsval num) (lit : string) : bool :=
  match v with
  | Some (JStr s) => bool_decide (s = lit)
  | _ => false
  end.

(** Whether ToPrimitive returns on a value.  An object made by [JSON.parse]
    converts through [Object.prototype.toString], unless it has an own
    property named [toString]: that property is no function, nothing is
    left to call and the conversion throws a TypeError.  An array converts
    through [join], which converts its elements. *)
Fixpoint convertible (v : json num) : bool :=
  match v with
  | JObj fs => negb (bool_decide ("toString" ∈ fs.*1))
  | JArr items => forallb convertible items
  | _ => true
  end.

Definition convertibleU (v : jsval num) : bool :=
  match v with
  | None => true
  | Some v => convertible v
  end.

(** ToString, as applied by template literals and by [setAttribute]. *)
Definition ToString (v : json num) : outcome string :=
  if convertible v then Ok (toString v) else Throw TypeError.

Definition ToStringU (v : jsval num) : outcome string :=
  if convertibleU v then Ok (toStringU v) else Throw TypeError.

(** The conversion made by [node.textContent = v]. *)
Definition TextOf (v : jsval num) : outcome string :=
  if convertibleU v then Ok (textOf v) else Throw TypeError.

(** [Math.round(v)], printed: ToNumber converts an object first. *)
Definition MathRound (v : jsval num) : outcome string :=
  if convertibleU v then Ok (mathRound v) else Throw TypeError.
End JsValues.

(** ** The page *)

(** An element found by [document.getElementById]: its text and the two
    style properties [flashElement] writes. *)
Record Element := {
  textContent : string;
  style_transition : string;
  style_color : string
}.

(** An element carrying [data-agent-id].  [agent_tcr] is the text of its
    [.agent-tcr] descendant, when it has one. *)
Record AgentCard := {
  data_agent_id : string;
  agent_id_text : string;
  agent_status : string;
  agent_health : string;
  agent_tcr : option string
}.

(** A [.task-card] inside a kanban column; the fields after the attribute
    are the texts interpolated into its [innerHTML]. *)
Record TaskCard := {
  task_className : string;
  data_task_id : option string;
  task_id_text : string;
  task_title : string;
  task_agent : string;
  task_duration : option string
}.

(** An element carrying [data-stage]; [stage_icon] is the text of its
    [.stage-icon] descendant, when it has one. *)
Record Stage := {
  data_stage : string;
  stage_className : string;
  stage_icon : option string
}.

(** The [.status-indicator] element. *)
Record Indicator := {
  ind_active : bool;
  ind_background : string
}.

(** The part of the page the client reads and writes.
    - [elements]: the elements that have an id, by id; they hold text
      only, but [#agent-grid], which holds the agent cards;
    - [agentCards]: the elements with a [data-agent-id], in document order;
      they are the children of [#agent-grid];
    - [kanban]: the [.kanban-column] elements in document order, each with
      its task cards; the columns are the first children of the board, so
      that [.kanban-column:nth-child(k)] is column [k-1];
    - [pipeline]: the elements with a [data-stage], in document order;
    - [indicator], [statusText]: [.status-indicator] and the text of
      [.status-item span:last-child], when the page has them.
    An attribute selector [[attr="s"]] selects the elements whose attribute
    is the value that [s] denotes as a CSS string (see [cssStringValue]).
    The cards and the stages hold the texts the client wrote into them and
    no markup (see [markupFree]). *)
Record Document := {
  elements : gmap string Element;
  agentCards : list AgentCard;
  kanban : list (list TaskCard);
  pipeline : list Stage;
  indicator : option Indicator;
  statusText : option string
}.

Definition set_elements (f : gmap string Element → gmap string Element)
    (d : Document) : Document :=
  {| elements := f (elements d); agentCards := agentCards d;
     kanban := kanban d; pipeline := pipeline d;
     indicator := indicator d; statusText := statusText d |}.

Definition set_agentCards (f : list AgentCard → list AgentCard)
    (d : Document) : Document :=
  {| elements := elements d; agentCards := f (agentCards d);
     kanban := kanban d; pipeline := pipeline d;
     indicator := indicator d; statusText := statusText d |}.

Definition set_kanban (f : list (list TaskCard) → list (list TaskCard))
    (d : Document) : Document :=
  {| elements := elements d; agentCards := agentCards d;
     kanban := f (kanban d); pipeline := pipeline d;
     indicator := indicator d; statusText := statusText d |}.

Definition set_pipeline (f : list Stage → list Stage) (d : Document) : Document :=
  {| elements := elements d; agentCards := agentCards d;
     kanban := kanban d; pipeline := f (pipeline d);
     indicator := indicator d; statusText := statusText d |}.

Definition set_indicator (f : option Indicator → option Indicator)
    (d : Document) : Document :=
  {| elements := elements d; agentCards := agentCards d;
     kanban := kanban d; pipeline := pipeline d;
     indicator := f (indicator d); statusText := statusText d |}.

Definition set_statusText (f : option string → option string)
    (d : Document) : Document :=
  {| elements := elements d; agentCards := agentCards d;
     kanban := kanban d; pipeline := pipeline d;
     indicator := indicator d; statusText := f (statusText d) |}.

(** [document.getElementById(id)]: no element has the empty id. *)
Definition getElementById (id : string) (d : Document) : option Element :=
  if bool_decide (id = "") then None else elements d !! id.

(** [element.textContent = s] on the element with this id.  Assigning the
    text of [#agent-grid] replaces its children, the agent cards. *)
Definition assignText (id s : string) (d : Document) : Document :=
  let d' :=
    set_elements
      (alter (λ e, {| textContent := s;
                      style_transition := style_transition e;
                      style_color := style_color e |}) id) d in
  if bool_decide (id = "agent-grid") then set_agentCards (λ _, []) d' else d'.

Definition assignStyle (id tr col : string) (d : Document) : Document :=
  set_elements
    (alter (λ e, {| textContent := textContent e;
                    style_transition := tr;
                    style_color := col |}) id) d.

Definition assignColor (id col : string) (d : Document) : Document :=
  set_elements
    (alter (λ e, {| textContent := textContent e;
                    style_transition := style_transition e;
                    style_color := col |}) id) d.

(** Index of the first element of a list satisfying a test:
    [querySelector] returns the first match in document order. *)
Fixpoint findIndex {A} (p : A → bool) (l : list A) : option nat :=
  match l with
  | [] => None
  | x :: l => if p x then Some 0 else S <$> findIndex p l
  end.

(** *** Attribute selectors and markup

    The client looks elements up with [querySelector] on the text
    [[attr="s"]], [s] being a string of the message.  The browser reads [s]
    as the inside of a CSS string.  [cssStringValue s] is the value that
    string denotes, for the texts the embedding follows: ordinary
    characters stand for themselves, and a backslash before a character
    that is no hexadecimal digit and no line break stands for that
    character.  The other texts have no value here ([None]): a double quote
    ends the string and what comes after it is read as more selector, a
    line break ends it badly, a backslash before a hexadecimal digit starts
    a code point escape, a backslash at the end escapes the closing quote. *)
Definition isHexDigit (c : Ascii.ascii) : bool :=
  let n := Ascii.nat_of_ascii c in
  ((48 <=? n) && (n <=? 57)) || ((65 <=? n) && (n <=? 70))
  || ((97 <=? n) && (n <=? 102)).

(** Line feed, form feed and carriage return. *)
Definition isNewline (c : Ascii.ascii) : bool :=
  let n := Ascii.nat_of_ascii c in
  (n =? 10) || (n =? 12) || (n =? 13).

(** The characters that end a string badly, and NUL, which the browser
    replaces. *)
Definition isLineBreak (c : Ascii.ascii) : bool :=
  (Ascii.nat_of_ascii c =? 0) || isNewline c.

Fixpoint cssStringValue (s : string) : option string :=
  match s with
  | EmptyString => Some EmptyString
  | String c rest =>
      if Ascii.eqb c "034" || isLineBreak c then None
      else if Ascii.eqb c "\" then
        match rest with
        | EmptyString => None
        | String c' rest' =>
            if isHexDigit c' || isLineBreak c' then None
            else String c' <$> cssStringValue rest'
        end
      else String c <$> cssStringValue rest
  end.

(** What follows the closing quote of the value in [[attr="v"...]] cannot
    go on as a selector: after spaces, only a bracket, one of the flags [i]
    and [s] (which an escape may spell) or a comment can follow.  When [s]
    ends with the quote, what follows is the quote of the template. *)
Fixpoint afterQuoteInvalid (rest : string) : bool :=
  match rest with
  | EmptyString => true
  | String c rest' =>
      if Ascii.eqb c " " || (Ascii.nat_of_ascii c =? 9) || isNewline c
      then afterQuoteInvalid rest'
      else negb (Ascii.eqb c "]" || Ascii.eqb c "i" || Ascii.eqb c "I"
                 || Ascii.eqb c "s" || Ascii.eqb c "S"
                 || Ascii.eqb c "\" || Ascii.eqb c "/")
  end.

(** The texts for which [[attr="s"]] is certainly no selector: a line break
    in the string, or a double quote followed by what cannot go on as a
    selector.  [querySelector] throws a SyntaxError on them. *)
Fixpoint selectorInvalid (s : string) : bool :=
  match s with
  | EmptyString => false
  | String c rest =>
      if Ascii.eqb c "034" then afterQuoteInvalid rest
      else if isNewline c then true
      else if Ascii.nat_of_ascii c =? 0 then false
      else if Ascii.eqb c "\" then
        match rest with
        | EmptyString => false
        | String c' rest' =>
            if isHexDigit c' || isLineBreak c' then false
            else selectorInvalid rest'
        end
      else selectorInvalid rest
  end.

(** The value looked for by [querySelector] on [[attr="s"]]. *)
Definition attributeSelector (s : string) : outcome string :=
  match cssStringValue s with
  | Some v => Ok v
  | None => if selectorInvalid s then Throw SyntaxError else Throw Unmodelled
  end.

(** A text that [innerHTML] takes as text: it has no [<], which may open a
    tag, no [&], which may open a character reference, and no NUL or
    carriage return, which the parser replaces. *)
Fixpoint markupFree (s : string) : bool :=
  match s with
  | EmptyString => true
  | String c rest =>
      negb (Ascii.eqb c "<" || Ascii.eqb c "&"
            || (Ascii.nat_of_ascii c =? 0) || (Ascii.nat_of_ascii c =? 13))
      && markupFree rest
  end.

(** The assignment to [innerHTML] of a template that interpolates [texts]
    between its tags. *)
Definition innerHTML (texts : list string) : outcome unit :=
  if forallb markupFree texts then Ok tt else Throw Unmodelled.

(** Position (column, index in the column) of the first task card with this
    [data-task-id]. *)
Fixpoint findTask (id : string) (cols : list (list TaskCard)) : option (nat * nat) :=
  match cols with
  | [] => None
  | col :: cols =>
      match findIndex (λ c, bool_decide (data_task_id c = Some id)) col with
      | Some j => Some (0, j)
      | None => (λ p, (S p.1, p.2)) <$> findTask id cols
      end
  end.

(** [column.appendChild(card)] for a card not yet in the page. *)
Definition appendToColumn (k : nat) (c : TaskCard)
    (cols : list (list TaskCard)) : list (list TaskCard) :=
  alter (λ col, col ++ [c]) k cols.

(** Removal of the card at a position. *)
Definition removeTask (pos : nat * nat) (cols : list (list TaskCard)) :
    list (list TaskCard) :=
  alter (λ col, delete pos.2 col) pos.1 cols.

(** ** The world of the client *)

(** [WebSocket.readyState]. *)
Inductive ReadyState := CONNECTING | OPEN | CLOSING | CLOSED.

Global Instance ReadyState_eq_dec : EqDecision ReadyState.
Proof. solve_decision. Defined.

(** The two messages the client sends, by their [type]. *)
Inductive ClientMsg := get_metrics | ping.

(** The fields of a [CrewAIDashboardClient].  [ws] is null or one of the
    sockets of the world; [pingInterval] tells whether the field holds the
    handle returned by [setInterval]. *)
Record Client := {
  wsUrl : string;
  ws : option nat;
  reconnectInterval : Z;
  reconnectAttempts : nat;
  maxReconnectAttempts : nat;
  isConnected : bool;
  pingInterval : bool
}.

Inductive LogLevel := LogInfo | LogWarn | LogError.

Global Instance LogLevel_eq_dec : EqDecision LogLevel.
Proof. solve_decision. Defined.

Record LogEntry := {
  log_level : LogLevel;
  log_text : string;
  log_arg : string
}.

(** - [sockets]: every WebSocket object created so far, by creation rank;
    - [sent]: the messages passed to [ws.send], with the socket used;
    - [urlAccepted]: whether [new WebSocket(wsUrl)] succeeds (it throws a
      SyntaxError on a URL it cannot use);
    - [intervalTimer]: the period of the [setInterval] timer while it is
      scheduled;
    - [reconnectTimers]: the delays of the pending
      [setTimeout(() => this.connect(), ...)] calls;
    - [flashTimers]: the ids of the elements whose colour a pending
      [setTimeout] of [flashElement] will clear. *)
Record World := {
  client : Client;
  doc : Document;
  console : list LogEntry;
  sockets : list ReadyState;
  sent : list (nat * ClientMsg);
  urlAccepted : bool;
  intervalTimer : option Z;
  reconnectTimers : list Z;
  flashTimers : list string
}.

Definition set_client (f : Client → Client) (w : World) : World :=
  {| client := f (client w); doc := doc w; console := console w;
     sockets := sockets w; sent := sent w; urlAccepted := urlAccepted w;
     intervalTimer := intervalTimer w; reconnectTimers := reconnectTimers w;
     flashTimers := flashTimers w |}.

Definition set_doc (f : Document → Document) (w : World) : World :=
  {| client := client w; doc := f (doc w); console := console w;
     sockets := sockets w; sent := sent w; urlAccepted := urlAccepted w;
     intervalTimer := intervalTimer w; reconnectTimers := reconnectTimers w;
     flashTimers := flashTimers w |}.

Definition set_console (f : list LogEntry → list LogEntry) (w : World) : World :=
  {| client := client w; doc := doc w; console := f (console w);
     sockets := sockets w; sent := sent w; urlAccepted := urlAccepted w;
     intervalTimer := intervalTimer w; reconnectTimers := reconnectTimers w;
     flashTimers := flashTimers w |}.

Definition set_sockets (f : list ReadyState → list ReadyState) (w : World) : World :=
  {| client := client w; doc := doc w; console := console w;
     sockets := f (sockets w); sent := sent w; urlAccepted := urlAccepted w;
     intervalTimer := intervalTimer w; reconnectTimers := reconnectTimers w;
     flashTimers := flashTimers w |}.

Definition set_sent (f : list (nat * ClientMsg) → list (nat * ClientMsg))
    (w : World) : World :=
  {| client := client w; doc := doc w; console := console w;
     sockets := sockets w; sent := f (sent w); urlAccepted := urlAccepted w;
     intervalTimer := intervalTimer w; reconnectTimers := reconnectTimers w;
     flashTimers := flashTimers w |}.

Definition set_intervalTimer (f : option Z → option Z) (w : World) : World :=
  {| client := client w; doc := doc w; console := console w;
     sockets := sockets w; sent := sent w; urlAccepted := urlAccepted w;
     intervalTimer := f (intervalTimer w); reconnectTimers := reconnectTimers w;
     flashTimers := flashTimers w |}.

Definition set_reconnectTimers (f : list Z → list Z) (w : World) : World :=
  {| client := client w; doc := doc w; console := console w;
     sockets := sockets w; sent := sent w; urlAccepted := urlAccepted w;
     intervalTimer := intervalTimer w; reconnectTimers := f (reconnectTimers w);
     flashTimers := flashTimers w |}.

Definition set_flashTimers (f : list string → list string) (w : World) : World :=
  {| client := client w; doc := doc w; console := console w;
     sockets := sockets w; sent := sent w; urlAccepted := urlAccepted w;
     intervalTimer := intervalTimer w; reconnectTimers := reconnectTimers w;
     flashTimers := f (flashTimers w) |}.

Definition set_ws (i : option nat) (c : Client) : Client :=
  {| wsUrl := wsUrl c; ws := i; reconnectInterval := reconnectInterval c;
     reconnectAttempts := reconnectAttempts c;
     maxReconnectAttempts := maxReconnectAttempts c;
     isConnected := isConnected c; pingInterval := pingInterval c |}.

Definition set_reconnectAttempts (n : nat) (c : Client) : Client :=
  {| wsUrl := wsUrl c; ws := ws c; reconnectInterval := reconnectInterval c;
     reconnectAttempts := n;
     maxReconnectAttempts := maxReconnectAttempts c;
     isConnected := isConnected c; pingInterval := pingInterval c |}.

Definition set_isConnected (b : bool) (c : Client) : Client :=
  {| wsUrl := wsUrl c; ws := ws c; reconnectInterval := reconnectInterval c;
     reconnectAttempts := reconnectAttempts c;
     maxReconnectAttempts := maxReconnectAttempts c;
     isConnected := b; pingInterval := pingInterval c |}.

Definition set_pingInterval (b : bool) (c : Client) : Client :=
  {| wsUrl := wsUrl c; ws := ws c; reconnectInterval := reconnectInterval c;
     reconnectAttempts := reconnectAttempts c;
     maxReconnectAttempts := maxReconnectAttempts c;
     isConnected := isConnected c; pingInterval := b |}.

(** ** Method bodies: state and exceptions

    A method body runs on a world and either completes or throws; what it
    wrote before throwing stays written. *)
Definition M (A : Type) : Type := World → outcome A * World.

Definition ret {A} (a : A) : M A := λ w, (Ok a, w).

Definition bind {A B} (m : M A) (k : A → M B) : M B :=
  λ w, match m w with
       | (Ok a, w') => k a w'
       | (Throw e, w') => (Throw e, w')
       end.

Definition throw {A} (e : JsError) : M A := λ w, (Throw e, w).

Definition lift {A} (r : outcome A) : M A := λ w, (r, w).

Definition gets {A} (f : World → A) : M A := λ w, (Ok (f w), w).

Definition modify (f : World → World) : M unit := λ w, (Ok tt, f w).

(** [try { m } catch (error) { h error }]. *)
Definition try_catch (m : M unit) (h : JsError → M unit) : M unit :=
  λ w, match m w with
       | (Ok a, w') => (Ok a, w')
       | (Throw e, w') => h e w'
       end.

(** [for (const x of l) { f x }] and [l.forEach(f)]. *)
Fixpoint forEach {A} (f : A → M unit) (l : list A) : M unit :=
  match l with
  | [] => ret tt
  | x :: l => bind (f x) (λ _, forEach f l)
  end.

(** The world a callback leaves behind. *)
Definition exec {A} (m : M A) (w : World) : World := (m w).2.

Declare Scope js_scope.
Delimit Scope js_scope with js.
Notation "'let*' x ':=' m 'in' k" := (bind m (λ x, k))
  (at level 10, x name, m at level 100, k at level 200) : js_scope.
Notation "m '>>' k" := (bind m (λ _, k))
  (at level 100, k at level 200, right associativity) : js_scope.
Open Scope js_scope.

Definition errorName (e : JsError) : string :=
  match e with
  | TypeError => "TypeError"
  | SyntaxError => "SyntaxError"
  | Unmodelled => "Unmodelled"
  end.

Definition console_write (l : LogLevel) (text arg : string) : M unit :=
  modify (set_console (λ c, c ++ [{| log_level := l; log_text := text; log_arg := arg |}])).

Definition console_log := console_write LogInfo.
Definition console_warn := console_write LogWarn.
Definition console_error := console_write LogError.

Definition modify_doc (f : Document → Document) : M unit := modify (set_doc f).

(** ** The client: connection *)

(** What [socket.close()] does to the [readyState]: a socket that is
    connecting or open starts closing, the others are left alone.  The
    close event comes later (see [step]). *)
Definition closing (r : ReadyState) : ReadyState :=
  match r with
  | CONNECTING | OPEN => CLOSING
  | CLOSING => CLOSING
  | CLOSED => CLOSED
  end.

(** [new WebSocket(this.wsUrl)]: a fresh socket, connecting. *)
Definition newWebSocket : M nat :=
  let* ok := gets urlAccepted in
  if ok : bool then
    let* i := gets (λ w, length (sockets w)) in
    modify (set_sockets (λ l, l ++ [CONNECTING])) >>
    ret i
  else throw SyntaxError.

Definition send (m : ClientMsg) : M unit :=
  let* s := gets (ws ∘ client) in
  let* socks := gets sockets in
  match s with
  | Some i =>
      match socks !! i with
      | Some OPEN => modify (set_sent (λ l, l ++ [(i, m)]))
      | _ => console_warn "[WS] Cannot send message - connection not open" ""
      end
  | None => console_warn "[WS] Cannot send message - connection not open" ""
  end.

Definition updateConnectionStatus (connected : bool) : M unit :=
  modify_doc (set_indicator (fmap (λ _,
    {| ind_active := connected;
       ind_background := if connected then "#10b981" else "#ef4444" |}))) >>
  modify_doc (set_statusText (fmap (λ _,
    if connected then "System Online" else "Connecting..."))).

Definition onConnect : M unit := send get_metrics.

(** The four handlers [connect] installs on the socket it creates. *)
Definition onopen : M unit :=
  console_log "[WS] Connected to CrewAI WebSocket server" "" >>
  modify (set_client (set_isConnected true)) >>
  modify (set_client (set_reconnectAttempts 0)) >>
  onConnect >>
  updateConnectionStatus true.

Definition onerror : M unit :=
  console_error "[WS] WebSocket error:" "" >>
  modify (set_client (set_isConnected false)).

Definition onclose : M unit :=
  console_log "[WS] Connection closed" "" >>
  modify (set_client (set_isConnected false)) >>
  updateConnectionStatus false >>
  let* c := gets client in
  if bool_decide (reconnectAttempts c < maxReconnectAttempts c) then
    modify (set_client (set_reconnectAttempts (S (reconnectAttempts c)))) >>
    console_log "[WS] Reconnecting... (Attempt)" (pretty (S (reconnectAttempts c))) >>
    modify (set_reconnectTimers (λ l, l ++ [reconnectInterval c]))
  else ret tt.

Definition connect : M unit :=
  let* url := gets (wsUrl ∘ client) in
  console_log "[WS] Connecting to" url >>
  try_catch
    (let* i := newWebSocket in
     modify (set_client (set_ws (Some i))))
    (λ e, console_error "[WS] Failed to create WebSocket:" (errorName e)).

Definition disconnect : M unit :=
  let* c := gets client in
  (if pingInterval c then modify (set_intervalTimer (λ _, None)) else ret tt) >>
  match ws c with
  | Some i => modify (set_sockets (alter closing i))
  | None => ret tt
  end.

(** The callback of the [setInterval] of the constructor. *)
Definition pingTick : M unit :=
  let* c := gets client in
  if isConnected c then send ping else ret tt.

(** [new CrewAIDashboardClient(url)] on a page [d]. *)
Definition constructor (url : string) : M unit :=
  modify (set_client (λ _,
    {| wsUrl := url; ws := None; reconnectInterval := 5000;
       reconnectAttempts := 0; maxReconnectAttempts := 10;
       isConnected := false; pingInterval := false |})) >>
  connect >>
  modify (set_intervalTimer (λ _, Some 30000%Z)) >>
  modify (set_client (set_pingInterval true)).

(** The world in which the constructor runs: a page, no socket, no timer. *)
Definition blank (d : Document) (accepted : bool) : World :=
  {| client := {| wsUrl := ""; ws := None; reconnectInterval := 0;
                  reconnectAttempts := 0; maxReconnectAttempts := 0;
                  isConnected := false; pingInterval := false |};
     doc := d; console := []; sockets := []; sent := [];
     urlAccepted := accepted; intervalTimer := None;
     reconnectTimers := []; flashTimers := [] |}.

Definition newClient (url : string) (d : Document) (accepted : bool) : World :=
  exec (constructor url) (blank d accepted).

(** ** The client: messages *)

(** The payload of a message event: text that [JSON.parse] rejects, or text
    that it parses to a value. *)
Inductive Frame (num : Type) : Type :=
  | Garbled (raw : string)
  | Text (v : json num).

Arguments Garbled {num} raw.
Arguments Text {num} v.

Section Messages.
Context {num : Type} `{JsNumber num}.

Definition JSON_parse (f : Frame num) : outcome (json num) :=
  match f with
  | Garbled _ => Throw SyntaxError
  | Text v => Ok v
  end.

(** [if (v) { f v }]. *)
Definition whenTruthy (v : jsval num) (f : json num → M unit) : M unit :=
  match v with
  | Some x => if truthy x then f x else ret tt
  | None => ret tt
  end.

(** [tcr >= 80]: a numeric comparison, false on NaN. *)
Definition ge80 (v : jsval num) : bool :=
  match toNumber v with
  | Some n => num_ge80 n
  | None => false
  end.

(** The comparison converts an object first. *)
Definition Ge80 (v : jsval num) : outcome bool :=
  if convertibleU v then Ok (ge80 v) else Throw TypeError.

Definition flashElement (elementId : string) : M unit :=
  let* d := gets doc in
  match getElementById elementId d with
  | Some _ =>
      modify_doc (assignStyle elementId "color 0.3s ease" "#3b82f6") >>
      modify (set_flashTimers (λ l, l ++ [elementId]))
  | None => ret tt
  end.

Definition updateMetricValue (metricId value : string) : M unit :=
  let* d := gets doc in
  match getElementById metricId d with
  | Some _ =>
      modify_doc (assignText metricId value) >>
      flashElement metricId
  | None => ret tt
  end.

Definition updateSystemMetrics (metrics : json num) : M unit :=
  let* entries := lift (objectEntries metrics) in
  forEach (λ kv : string * json num,
    let* d := gets doc in
    match getElementById kv.1 d with
    | Some _ =>
        let* text := lift (TextOf (Some kv.2)) in
        modify_doc (assignText kv.1 text) >>
        flashElement kv.1
    | None => ret tt
    end) entries.

Definition createAgentCard (agentId : json num) (metrics : json num) : M unit :=
  let* d := gets doc in
  match getElementById "agent-grid" d with
  | None => ret tt
  | Some _ =>
      let* id := lift (ToString agentId) in
      let* rate := lift (getProp metrics "task_completion_rate") in
      let tcr := if truthyU rate then rate else Some (JNum num_zero) in
      let* healthy := lift (Ge80 tcr) in
      let healthClass := if healthy then "healthy" else "warning" in
      let* shown := lift (callToFixed1 tcr) in
      lift (innerHTML [id]) >>
      modify_doc (set_agentCards (λ l, l ++
        [{| data_agent_id := id;
            agent_id_text := id;
            agent_status := "Active";
            agent_health := healthClass;
            agent_tcr := Some (shown +:+ "%") |}]))
  end.

Definition setAgentTcr (s : string) (c : AgentCard) : AgentCard :=
  {| data_agent_id := data_agent_id c; agent_id_text := agent_id_text c;
     agent_status := agent_status c; agent_health := agent_health c;
     agent_tcr := Some s |}.

Definition updateAgentMetric (agentId : json num) (metrics : json num) : M unit :=
  let* id := lift (ToString agentId) in
  let* value := lift (attributeSelector id) in
  let* cards := gets (agentCards ∘ doc) in
  match findIndex (λ c, bool_decide (data_agent_id c = value)) cards with
  | None => createAgentCard agentId metrics
  | Some k =>
      let* rate := lift (getProp metrics "task_completion_rate") in
      match rate with
      | Some _ =>
          match cards !! k ≫= agent_tcr with
          | Some _ =>
              let* shown := lift (callToFixed1 rate) in
              modify_doc (set_agentCards (alter (setAgentTcr (shown +:+ "%")) k))
          | None => ret tt
          end
      | None => ret tt
      end
  end.

Definition updateAgentMetrics (agents : json num) : M unit :=
  let* entries := lift (objectEntries agents) in
  forEach (λ kv : string * json num, updateAgentMetric (JStr kv.1) kv.2) entries.

(** The column of a status in [createTaskCard]: the first one by default. *)
Definition columnIndex (status : jsval num) : nat :=
  if isStr status "backlog" then 0
  else if isStr status "in_progress" then 1
  else if isStr status "testing" then 2
  else if isStr status "done" || isStr status "failed" then 3
  else 0.

Definition createTaskCard (taskData : json num) : M unit :=
  let* status := lift (getProp taskData "status") in
  let* className := lift (ToStringU status) in
  let* task_id := lift (getProp taskData "task_id") in
  let* id := lift (ToStringU task_id) in
  let* description := lift (getProp taskData "description") in
  let* title :=
    (if truthyU description then lift (ToStringU description) else ret "Task") in
  let* agent := lift (getProp taskData "agent") in
  let* agentName := lift (ToStringU agent) in
  let* duration := lift (getProp taskData "duration") in
  let* tag :=
    (if truthyU duration
     then let* shown := lift (callToFixed1 duration) in ret (Some (shown +:+ "s"))
     else ret None) in
  lift (innerHTML [id; title; agentName]) >>
  let card :=
    {| task_className := "task-card " +:+ className;
       data_task_id := Some id;
       task_id_text := id;
       task_title := title;
       task_agent := agentName;
       task_duration := tag |} in
  let* cols := gets (kanban ∘ doc) in
  match cols !! columnIndex status with
  | Some _ => modify_doc (set_kanban (appendToColumn (columnIndex status) card))
  | None => ret tt
  end.

Definition updateRecentTasks (tasks : json num) : M unit :=
  modify_doc (set_kanban (fmap (λ _, []))) >>
  match tasks with
  | JArr items => forEach createTaskCard items
  | _ => throw TypeError
  end.

Definition handleInitialData (data : json num) : M unit :=
  console_log "[WS] Received initial data" "" >>
  let* system_metrics := lift (getProp data "system_metrics") in
  whenTruthy system_metrics updateSystemMetrics >>
  let* agents := lift (getProp data "agents") in
  whenTruthy agents updateAgentMetrics >>
  let* recent_tasks := lift (getProp data "recent_tasks") in
  whenTruthy recent_tasks updateRecentTasks.

(** [handleMetricUpdate] calls [this.updateSystemMetric], a method the
    class does not define (it defines [updateSystemMetrics] and
    [updateMetricValue]): the call throws a TypeError. *)
Definition updateSystemMetric (data : json num) : M unit := throw TypeError.

Definition handleMetricUpdate (data : json num) : M unit :=
  let* agent_id := lift (getProp data "agent_id") in
  match agent_id with
  | Some a => if truthy a then updateAgentMetric a data else updateSystemMetric data
  | None => updateSystemMetric data
  end.

(** The column a task card is moved to in [handleTaskUpdate]: none for a
    status outside the five known ones. *)
Definition targetColumn (status : jsval num) : option nat :=
  if isStr status "backlog" then Some 0
  else if isStr status "in_progress" then Some 1
  else if isStr status "testing" then Some 2
  else if isStr status "done" || isStr status "failed" then Some 3
  else None.

Definition setTaskClass (s : string) (c : TaskCard) : TaskCard :=
  {| task_className := s; data_task_id := data_task_id c;
     task_id_text := task_id_text c; task_title := task_title c;
     task_agent := task_agent c; task_duration := task_duration c |}.

(** [targetColumn.appendChild(taskElement)] for a card of the page: the
    card leaves its place and becomes the last card of the column. *)
Definition moveTask (pos : nat * nat) (k : nat)
    (cols : list (list TaskCard)) : list (list TaskCard) :=
  match cols !! pos.1 ≫= (λ col, col !! pos.2) with
  | Some c => appendToColumn k c (removeTask pos cols)
  | None => cols
  end.

Definition handleTaskUpdate (data : json num) : M unit :=
  let* taskId := lift (getProp data "task_id") in
  let* status := lift (getProp data "status") in
  let* id := lift (ToStringU taskId) in
  let* value := lift (attributeSelector id) in
  let* cols := gets (kanban ∘ doc) in
  match findTask value cols with
  | Some pos =>
      let* className := lift (ToStringU status) in
      modify_doc (set_kanban
        (alter (alter (setTaskClass ("task-card " +:+ className)) pos.2) pos.1)) >>
      match targetColumn status with
      | Some k =>
          match cols !! k with
          | Some _ => modify_doc (set_kanban (moveTask pos k))
          | None => ret tt
          end
      | None => ret tt
      end
  | None => createTaskCard data
  end >>
  flashElement ("task-" +:+ id).

Definition handleSystemUpdate (data : json num) : M unit :=
  let* system_tcr := lift (getProp data "system_tcr") in
  match system_tcr with
  | Some _ =>
      let* shown := lift (callToFixed1 system_tcr) in
      updateMetricValue "tcr" (shown +:+ "%")
  | None => ret tt
  end >>
  let* system_velocity := lift (getProp data "system_velocity") in
  match system_velocity with
  | Some _ =>
      let* rounded := lift (MathRound system_velocity) in
      updateMetricValue "velocity" rounded
  | None => ret tt
  end >>
  let* total_agents := lift (getProp data "total_agents") in
  match total_agents with
  | Some _ =>
      let* d := gets doc in
      match getElementById "total-agents" d with
      | Some _ =>
          let* text := lift (TextOf total_agents) in
          modify_doc (assignText "total-agents" text)
      | None => throw TypeError
      end
  | None => ret tt
  end.

Definition stageIcon (status : jsval num) : string :=
  if isStr status "completed" then "✓"
  else if isStr status "running" then "⟳"
  else if isStr status "failed" then "✗"
  else "○".

Definition handlePipelineUpdate (data : json num) : M unit :=
  let* stage := lift (getProp data "stage") in
  let* status := lift (getProp data "status") in
  let* name := lift (ToStringU stage) in
  let* value := lift (attributeSelector name) in
  let* stages := gets (pipeline ∘ doc) in
  match findIndex (λ s, bool_decide (data_stage s = value)) stages with
  | Some k =>
      let* className := lift (ToStringU status) in
      modify_doc (set_pipeline (alter (λ s,
        {| data_stage := data_stage s;
           stage_className := "pipeline-stage " +:+ className;
           stage_icon := (λ _, stageIcon status) <$> stage_icon s |}) k))
  | None => ret tt
  end.

Definition handleMessage (data : json num) : M unit :=
  let* type := lift (getProp data "type") in
  console_log "[WS] Received:" (toStringU type) >>
  if isStr type "initial" then handleInitialData data
  else if isStr type "metric_update" then handleMetricUpdate data
  else if isStr type "task_update" then handleTaskUpdate data
  else if isStr type "system_update" then handleSystemUpdate data
  else if isStr type "pipeline_update" then handlePipelineUpdate data
  else if isStr type "pong" then ret tt
  else console_log "[WS] Unknown message type:" (toStringU type).

Definition onmessage (f : Frame num) : M unit :=
  try_catch
    (let* data := lift (JSON_parse f) in
     handleMessage data)
    (λ e, console_error "[WS] Error parsing message:" (errorName e)).

(** ** The browser

    What can happen to a client between two callbacks.  A socket opens
    once, while it is connecting; it delivers messages while it is open;
    it closes once; a timer fires while it is pending. *)
Inductive Event :=
  | SockOpen (i : nat)
  | SockMessage (i : nat) (f : Frame num)
  | SockError (i : nat)
  | SockClose (i : nat)
  | ReconnectTimer
  | PingTimer
  | FlashTimer
  | CallDisconnect.

(** One event; [None] when the browser cannot produce it in this world. *)
Definition step (w : World) (e : Event) : option World :=
  match e with
  | SockOpen i =>
      match sockets w !! i with
      | Some CONNECTING => Some (exec onopen (set_sockets (<[i:=OPEN]>) w))
      | _ => None
      end
  | SockMessage i f =>
      match sockets w !! i with
      | Some OPEN => Some (exec (onmessage f) w)
      | _ => None
      end
  | SockError i =>
      match sockets w !! i with
      | Some CLOSED | None => None
      | Some _ => Some (exec onerror w)
      end
  | SockClose i =>
      match sockets w !! i with
      | Some CLOSED | None => None
      | Some _ => Some (exec onclose (set_sockets (<[i:=CLOSED]>) w))
      end
  | ReconnectTimer =>
      match reconnectTimers w with
      | _ :: rest => Some (exec connect (set_reconnectTimers (λ _, rest) w))
      | [] => None
      end
  | PingTimer =>
      match intervalTimer w with
      | Some _ => Some (exec pingTick w)
      | None => None
      end
  | FlashTimer =>
      match flashTimers w with
      | id :: rest =>
          Some (set_doc (assignColor id "") (set_flashTimers (λ _, rest) w))
      | [] => None
      end
  | CallDisconnect => Some (exec disconnect w)
  end.

Fixpoint run (w : World) (es : list Event) : option World :=
  match es with
  | [] => Some w
  | e :: es =>
      match step w e with
      | Some w' => run w' es
      | None => None
      end
  end.
End Messages.

Arguments Event : clear implicits.

(** ** Integers as JavaScript numbers

    The integers are JavaScript numbers (exactly, up to 2^53), and the
    concrete runs below use no others.  [toFixed(1)] prints an integer with
    one zero after the point; [Math.round] leaves it alone.  Strings are
    read by an integer-literal reader: the empty string is 0, an optional
    minus sign and decimal digits are that integer, anything else reads as
    NaN among the integers. *)
Definition digitValue (c : Ascii.ascii) : option Z :=
  let n := Z.of_nat (Ascii.nat_of_ascii c) in
  if bool_decide (48 ≤ n ≤ 57)%Z then Some (n - 48)%Z else None.

Fixpoint readDigits (acc : Z) (s : string) : option Z :=
  match s with
  | EmptyString => Some acc
  | String c s =>
      match digitValue c with
      | Some d => readDigits (10 * acc + d)%Z s
      | None => None
      end
  end.

Definition readInteger (s : string) : option Z :=
  match s with
  | EmptyString => Some 0%Z
  | String "-"%char (String c s') => Z.opp <$> readDigits 0 (String c s')
  | String "-"%char EmptyString => None
  | _ => readDigits 0 s
  end.

#[refine] Global Instance IntNumber : JsNumber Z := {|
  num_zero := 0%Z;
  num_one := 1%Z;
  num_truthy n := bool_decide (n ≠ 0%Z);
  num_ge80 n := bool_decide (80 ≤ n)%Z;
  num_toString n := pretty n;
  num_toFixed1 n := pretty n +:+ ".0";
  num_round n := pretty n;
  num_of_string := readInteger
|}.
Proof.
  - reflexivity.
  - intros n Hn. apply bool_decide_eq_false in Hn.
    destruct (decide (n = 0%Z)) as [->|]; [reflexivity | contradiction].
Defined.

(** ** Sample pages and frames *)

Definition blankElement : Element :=
  {| textContent := ""; style_transition := ""; style_color := "" |}.

(** A dashboard page: the three system metrics, the agent grid, the four
    kanban columns, three pipeline stages and the connection status. *)
Definition dashboard : Document :=
  {| elements :=
       <["tcr" := blankElement]>
       (<["velocity" := blankElement]>
       (<["total-agents" := blankElement]>
       (<["agent-grid" := blankElement]> ∅)));
     agentCards := [];
     kanban := [[]; []; []; []];
     pipeline :=
       [ {| data_stage := "build"; stage_className := "pipeline-stage pending";
            stage_icon := Some "○" |};
         {| data_stage := "test"; stage_className := "pipeline-stage pending";
            stage_icon := Some "○" |};
         {| data_stage := "deploy"; stage_className := "pipeline-stage pending";
            stage_icon := Some "○" |} ];
     indicator := Some {| ind_active := true; ind_background := "#10b981" |};
     statusText := Some "System Online" |}.

(** The client of the page: [new CrewAIDashboardClient()]. *)
Definition started : World := newClient "ws://localhost:8765" dashboard true.

(** The same client once its socket has opened. *)
Definition opened : World :=
  default started (run (num := Z) started [SockOpen 0]).

Definition obj (type : string) (fields : list (string * json Z)) : json Z :=
  JObj (("type", JStr type) :: fields).

(** ** Predicates on worlds and runs *)

(** The session of a world is what the connection code owns: the fields of
    the client, the sockets, the messages sent and the two connection
    timers.  The message handlers write the page, the console and the flash
    timers only: they keep the session. *)
Definition session (w : World) :=
  (client w, sockets w, sent w, urlAccepted w, intervalTimer w, reconnectTimers w).

Definition keeps {A} (m : M A) : Prop := ∀ w, session (m w).2 = session w.

(** Every socket but the current one is closed, and a reconnect timer is
    pending only while all of them are: [connect] runs from the constructor
    and from the reconnect timer, and that timer is armed by the close of a
    socket. *)
Definition one_live_socket (w : World) : Prop :=
  (∀ i r, sockets w !! i = Some r → r ≠ CLOSED →
          ws (client w) = Some i ∧ reconnectTimers w = []) ∧
  length (reconnectTimers w) ≤ 1.

Section Runs.
Context {num : Type} `{JsNumber num}.


End Runs.


Definition logged (l : LogLevel) (text arg : string) (w : World) : World :=
  set_console (λ c, c ++ [{| log_level := l; log_text := text; log_arg := arg |}]) w.

(** ** Kinds of messages *)

(** The six cases of the switch of [handleMessage]. *)
Inductive Kind :=
  | initial | metric_update | task_update | system_update | pipeline_update | pong.

Section Kinds.
Context {num : Type} `{JsNumber num}.

(** The case the switch selects for a value of [data.type]; [None] is the
    default case. *)
Definition kindOfType (type : jsval num) : option Kind :=
  if isStr type "initial" then Some initial
  else if isStr type "metric_update" then Some metric_update
  else if isStr type "task_update" then Some task_update
  else if isStr type "system_update" then Some system_update
  else if isStr type "pipeline_update" then Some pipeline_update
  else if isStr type "pong" then Some pong
  else None.

(** The kind of a frame: none when the frame does not parse, when it parses
    to null, or when its [type] is not one of the six. *)
Definition kindOf (f : Frame num) : option Kind :=
  match f with
  | Garbled _ => None
  | Text d =>
      match getProp d "type" with
      | Ok type => kindOfType type
      | Throw _ => None
      end
  end.

(** The handler the switch calls for each kind. *)
Definition handlerOf (k : Kind) : json num → M unit :=
  match k with
  | initial => handleInitialData
  | metric_update => handleMetricUpdate
  | task_update => handleTaskUpdate
  | system_update => handleSystemUpdate
  | pipeline_update => handlePipelineUpdate
  | pong => λ _, ret tt
  end.

(** The diagnostics [onmessage] writes for a frame that has no kind. *)
Definition dropDiagnostics (f : Frame num) (w : World) : World :=
  match f with
  | Garbled _ => logged LogError "[WS] Error parsing message:" "SyntaxError" w
  | Text d =>
      match getProp d "type" with
      | Ok type =>
          logged LogInfo "[WS] Unknown message type:" (toStringU type)
            (logged LogInfo "[WS] Received:" (toStringU type) w)
      | Throw e => logged LogError "[WS] Error parsing message:" (errorName e) w
      end
  end.

(** The validation the specification asks of the codec, in its words: the
    frame has a kind discriminator, and the fields its wire contract lists
    for that kind ([agent_id] and [duration] are optional, [system_update]
    carries any subset of its fields). *)
Definition spec_requiredFields (k : Kind) : list string :=
  match k with
  | initial => ["system_metrics"; "agents"; "recent_tasks"]
  | metric_update => []
  | task_update => ["task_id"; "status"; "description"; "agent"]
  | system_update => []
  | pipeline_update => ["stage"; "status"]
  | pong => []
  end.

Definition spec_valid (f : Frame num) : bool :=
  match f, kindOf f with
  | Text (JObj fields), Some k =>
      forallb (λ name, bool_decide (is_Some (assoc name fields)))
              (spec_requiredFields k)
  | _, _ => false
  end.
End Kinds.

(** ** Sample frames *)

(** A [task_update] that carries no field but its type. *)
Definition bareTaskUpdate : Frame Z := Text (obj "task_update" []).

(** A frame of a kind the client does not know, and one that is not JSON. *)
Definition unknownKind : Frame Z := Text (obj "heartbeat" [("seq", JNum 7%Z)]).
Definition notJson : Frame Z := Garbled "{type:".

(** A system-level metric update: no [agent_id]. *)
Definition systemMetric : Frame Z :=
  Text (obj "metric_update" [("task_completion_rate", JNum 50%Z)]).

(** ** Frames of page updates *)

(** [w'] is [w] but for the console, the flash timers and the elements
    whose id is in [ids]. *)
Definition only_elements (ids : list string) (w w' : World) : Prop :=
  session w' = session w ∧
  agentCards (doc w') = agentCards (doc w) ∧
  kanban (doc w') = kanban (doc w) ∧
  pipeline (doc w') = pipeline (doc w) ∧
  indicator (doc w') = indicator (doc w) ∧
  statusText (doc w') = statusText (doc w) ∧
  ∀ id, id ∉ ids → elements (doc w') !! id = elements (doc w) !! id.

(** [w'] is [w] with [text] written to the element [id], if the page has
    it, and nothing else of the page touched. *)
Definition writes (id text : string) (w w' : World) : Prop :=
  only_elements [id] w w' ∧
  textContent <$> elements (doc w') !! id = (λ _, text) <$> elements (doc w) !! id.

(** A field of an event that is absent or a number. *)
Definition numberOrAbsent {num} (v : jsval num) : Prop :=
  v = None ∨ ∃ n, v = Some (JNum n).

(** A [system_update] with two of the three fields. *)
Definition partialSystemUpdate : Frame Z :=
  Text (obj "system_update" [("system_tcr", JNum 87%Z); ("total_agents", JNum 12%Z)]).

Section SystemUpdateSpec.
Context {num : Type} `{JsNumber num}.

(** The element that shows each field of a [system_update]. *)
Definition systemFieldOf (id : string) : option string :=
  if bool_decide (id = "tcr") then Some "system_tcr"
  else if bool_decide (id = "velocity") then Some "system_velocity"
  else if bool_decide (id = "total-agents") then Some "total_agents"
  else None.

(** [w'] is [w] after a partial update by the fields of a [system_update]:
    - an element is what it was unless it is the element of a field
      present in the event, and the rest of the page and the session are
      what they were;
    - a [system_tcr] that is a number is written to [#tcr] with one decimal
      and a percent sign;
    - when [system_tcr] is a number or absent, a [system_velocity] that
      converts to a number is written rounded to [#velocity];
    - when moreover [system_velocity] is absent or converts, a
      [total_agents] that converts to a string is written to
      [#total-agents].
    Every JSON value converts but the objects with an own [toString]
    property and the arrays that hold one (see [convertible]). *)
Definition partiallyUpdated (fields : list (string * json num)) (w w' : World) : Prop :=
  (∀ id, (∀ name, systemFieldOf id = Some name → assoc name fields = None) →
         elements (doc w') !! id = elements (doc w) !! id) ∧
  only_elements ["tcr"; "velocity"; "total-agents"] w w' ∧
  (∀ n, assoc "system_tcr" fields = Some (JNum n) →
        textContent <$> elements (doc w') !! "tcr"
        = (λ _, num_toFixed1 n +:+ "%") <$> elements (doc w) !! "tcr") ∧
  (numberOrAbsent (assoc "system_tcr" fields) →
   ∀ v, assoc "system_velocity" fields = Some v → convertible v = true →
        textContent <$> elements (doc w') !! "velocity"
        = (λ _, mathRound (Some v)) <$> elements (doc w) !! "velocity") ∧
  (numberOrAbsent (assoc "system_tcr" fields) →
   convertibleU (assoc "system_velocity" fields) = true →
   ∀ v, assoc "total_agents" fields = Some v → convertible v = true →
        textContent <$> elements (doc w') !! "total-agents"
        = (λ _, textOf (Some v)) <$> elements (doc w) !! "total-agents").
End SystemUpdateSpec.

(** A metric update for one agent. *)
Definition agentMetric : Frame Z :=
  Text (obj "metric_update" [("agent_id", JStr "AGT-1"); ("task_completion_rate", JNum 90%Z)]).

(** ** Plain ids *)



(** ** Initial state *)

(** A computation keeps a relation between the world it starts in and the
    world it leaves. *)
Definition preserves (R : relation World) {A} (m : M A) : Prop :=
  ∀ w, R w (m w).2.

(** The board is what it was. *)
Definition sameBoard : relation World :=
  λ w w', kanban (doc w') = kanban (doc w).

(** The agent cards are what they were. *)
Definition sameAgents : relation World :=
  λ w w', agentCards (doc w') = agentCards (doc w).

(** Every agent that had a card still has it, at the same place; the new
    cards come after. *)
Definition agentsKept : relation World :=
  λ w w', data_agent_id <$> agentCards (doc w)
          `prefix_of` data_agent_id <$> agentCards (doc w').

Section InitialSpec.
Context {num : Type} `{JsNumber num}.




End InitialSpec.




(** The agent grid, if the page has it, is still there. *)
Definition gridKept : relation World :=
  λ w w', is_Some (elements (doc w) !! "agent-grid") →
          is_Some (elements (doc w') !! "agent-grid").

(** ** Predicates for the life of a client *)

(** What the constructor fixes for good: the cap, the delay, the handle of
    the ping timer; with the bound the retry count keeps and the delay of
    every pending reconnect timer. *)
Definition configured (w : World) : Prop :=
  maxReconnectAttempts (client w) = 10 ∧
  reconnectInterval (client w) = 5000%Z ∧
  pingInterval (client w) = true ∧
  reconnectAttempts (client w) ≤ 10 ∧
  ∀ t, t ∈ reconnectTimers w → t = 5000%Z.

Section Traces.
Context {num : Type}.

Definition isDisconnect (e : Event num) : bool :=
  match e with
  | CallDisconnect => true
  | _ => false
  end.

(** The sockets that open in a run, in order. *)
Fixpoint opens (es : list (Event num)) : list nat :=
  match es with
  | [] => []
  | SockOpen i :: es => i :: opens es
  | _ :: es => opens es
  end.
End Traces.

Definition isGetMetrics (m : nat * ClientMsg) : bool :=
  match m.2 with
  | get_metrics => true
  | ping => false
  end.

(** ** Predicates for the page updates *)

(** What a card shows of its agent besides the rate. *)
Definition agentLabel (c : AgentCard) : string * string * string * string :=
  (data_agent_id c, agent_id_text c, agent_status c, agent_health c).

(** The cards that were on the page are still there, at their place, with
    the labels they had; new cards come after. *)
Definition labelsKept : relation World :=
  λ w w', agentLabel <$> agentCards (doc w) `prefix_of` agentLabel <$> agentCards (doc w').

Section TaskSpec.
Context {num : Type} `{JsNumber num}.




End TaskSpec.

(** A run with an outage: the session opens, a ping is sent, the socket
    closes, the client reconnects, and [disconnect] is called. *)
Definition outage : list (Event Z) :=
  [SockOpen 0; PingTimer; SockClose 0; ReconnectTimer; SockOpen 1; CallDisconnect].

Definition afterOutage : World := default started (run started outage).

(** A client given a URL that the WebSocket constructor rejects. *)
Definition rejected : World := newClient "localhost:8765" dashboard false.

Section PipelineSpec.
Context {num : Type} `{JsNumber num}.

End PipelineSpec.


(** A metric update that takes agent AGT-1 below the health threshold. *)
Definition lowMetric : Frame Z :=
  Text (obj "metric_update" [("agent_id", JStr "AGT-1"); ("task_completion_rate", JNum 10%Z)]).


(** The task ids of the cards of the board, column after column. *)
Definition taskIds (w : World) : list string :=
  omap data_task_id (concat (kanban (doc w))).

(** A card of another task than [id]. *)
Definition otherTask (id : string) (c : TaskCard) : Prop :=
  data_task_id c ≠ Some id.

Global Instance otherTask_dec id c : Decision (otherTask id c).
Proof. unfold otherTask. apply _. Defined.


(** The agents that have a card, in the order of the cards. *)
Definition agentIds (w : World) : list string :=
  data_agent_id <$> agentCards (doc w).

(** No agent gets a second card. *)
Definition agentsDistinct : relation World :=
  λ w w', NoDup (agentIds w) → NoDup (agentIds w').

(** ** Predicates for the connection status *)

(** The page says that the system is online: by its status text or by its
    indicator. *)
Definition showsOnline (d : Document) : Prop :=
  statusText d = Some "System Online" ∨ ind_active <$> indicator d = Some true.

(** The client takes the connection for established: its flag is set, or,
    where the page is taken into account, the page says online. *)
Definition claimsConnection (page : Prop) (w : World) : Prop :=
  (page ∧ showsOnline (doc w)) ∨ isConnected (client w) = true.

(** The dashboard, saying that it is connecting. *)
Definition offlinePage : Document :=
  set_statusText (λ _, Some "Connecting...")
    (set_indicator (λ _, Some {| ind_active := false; ind_background := "#ef4444" |})
       dashboard).

(** The current socket of the client is open, or closing after a call of
    [disconnect]. *)
Definition socketUp (w : World) : Prop :=
  ∃ i, ws (client w) = Some i ∧
       (sockets w !! i = Some OPEN ∨ sockets w !! i = Some CLOSING).

(** The connection status of the page is what it was. *)
Definition sameStatus : relation World :=
  λ w w', statusText (doc w') = statusText (doc w) ∧
          indicator (doc w') = indicator (doc w).

(** The agent ids that a frame may address: its [agent_id] and the keys of
    its [agents]. *)
Definition frameAgents {num} `{JsNumber num} (f : Frame num) : list string :=
  match f with
  | Text (JObj fields) =>
      match assoc "agent_id" fields with
      | Some a => [toString a]
      | None => []
      end ++
      match assoc "agents" fields with
      | Some v =>
          match objectEntries v with
          | Ok entries => entries.*1
          | Throw _ => []
          end
      | None => []
      end
  | _ => []
  end.

(** The handling of a frame stays within what the embedding describes. *)
Definition modelled {num} `{JsNumber num} (f : Frame num) (w : World) : Prop :=
  ∀ d, f = Text d → (handleMessage d w).1 ≠ Throw Unmodelled.

(** * Properties *)

(** ** What the message handlers leave alone *)
Lemma keeps_ret {A} (a : A) : keeps (ret a).
Proof. by intros w. Qed.
Lemma keeps_throw {A} e : keeps (@throw A e).
Proof. by intros w. Qed.
Lemma keeps_lift {A} (r : outcome A) : keeps (lift r).
Proof. by intros w. Qed.
Lemma keeps_gets {A} (f : World → A) : keeps (gets f).
Proof. by intros w. Qed.
Lemma keeps_bind {A B} (m : M A) (k : A → M B) :
  keeps m → (∀ a, keeps (k a)) → keeps (bind m k).
Proof.
  intros Hm Hk w. unfold bind. specialize (Hm w).
  destruct (m w) as [[a|e] w']; simpl in *; [by rewrite Hk | done].
Qed.
Lemma keeps_try_catch m h : keeps m → (∀ e, keeps (h e)) → keeps (try_catch m h).
Proof.
  intros Hm Hh w. unfold try_catch. specialize (Hm w).
  destruct (m w) as [[a|e] w']; simpl in *; [done | by rewrite Hh].
Qed.
Lemma keeps_forEach {A} (f : A → M unit) l : (∀ a, keeps (f a)) → keeps (forEach f l).
Proof.
  intros Hf. induction l as [|x l IH]; simpl; [apply keeps_ret|].
  apply keeps_bind; [apply Hf | intros _; apply IH].
Qed.
Lemma keeps_modify_doc f : keeps (modify_doc f).
Proof. by intros w. Qed.
Lemma keeps_console l t a : keeps (console_write l t a).
Proof. by intros w. Qed.
Lemma keeps_flashTimers f : keeps (modify (set_flashTimers f)).
Proof. by intros w. Qed.

Ltac keeps_step :=
  first
    [ apply keeps_ret | apply keeps_throw | apply keeps_lift | apply keeps_gets
    | apply keeps_modify_doc | apply keeps_console | apply keeps_flashTimers
    | apply keeps_bind; [| intros ?]
    | apply keeps_try_catch; [| intros ?]
    | apply keeps_forEach; intros ?
    | match goal with
      | |- keeps (match ?x with _ => _ end) => destruct x
      | |- keeps (if ?b then _ else _) => destruct b
      end ].

Section HandlersKeepSession.
Context {num : Type} `{JsNumber num}.

Lemma keeps_handleMessage d : keeps (handleMessage d).
Proof.
  unfold handleMessage, handleInitialData, handleMetricUpdate, handleTaskUpdate,
    handleSystemUpdate, handlePipelineUpdate, whenTruthy, updateSystemMetrics,
    updateAgentMetrics, updateRecentTasks, updateAgentMetric, createAgentCard,
    createTaskCard, updateSystemMetric, updateMetricValue, flashElement, console_log.
  repeat keeps_step.
Qed.
Lemma keeps_onmessage f : keeps (onmessage f).
Proof.
  unfold onmessage, console_error.
  repeat (apply keeps_handleMessage || keeps_step).
Qed.

End HandlersKeepSession.

(** ** One socket at a time *)
Lemma one_live_socket_ext w w' :
  sockets w' = sockets w → ws (client w') = ws (client w) →
  reconnectTimers w' = reconnectTimers w →
  one_live_socket w → one_live_socket w'.
Proof. unfold one_live_socket. intros -> -> ->. done. Qed.

Lemma one_live_socket_session w w' :
  session w' = session w → one_live_socket w → one_live_socket w'.
Proof.
  unfold session. intros [= Hc Hs _ _ _ Ht]. apply one_live_socket_ext; congruence.
Qed.

Lemma exec_onopen w :
  ∃ c d s, exec onopen w =
    {| client := set_reconnectAttempts 0 (set_isConnected true (client w));
       doc := d; console := c; sockets := sockets w; sent := s;
       urlAccepted := urlAccepted w; intervalTimer := intervalTimer w;
       reconnectTimers := reconnectTimers w; flashTimers := flashTimers w |}.
Proof.
  unfold exec, onopen, onConnect, send, updateConnectionStatus, console_log, console_warn,
    console_write, modify_doc, modify, gets, bind, ret. simpl.
  destruct (ws (client w)) as [i|]; simpl; [destruct (sockets w !! i) as [[]|]|]; simpl; eauto.
Qed.

Lemma exec_onclose w :
  ∃ c d a t, exec onclose w =
    {| client := set_reconnectAttempts a (set_isConnected false (client w));
       doc := d; console := c; sockets := sockets w; sent := sent w;
       urlAccepted := urlAccepted w; intervalTimer := intervalTimer w;
       reconnectTimers := reconnectTimers w ++ t; flashTimers := flashTimers w |}
    ∧ length t ≤ 1.
Proof.
  unfold exec, onclose, updateConnectionStatus, console_log,
    console_write, modify_doc, modify, gets, bind, ret. simpl.
  case_bool_decide; simpl.
  - eexists _, _, _, [_]. split; [reflexivity | simpl; lia].
  - eexists _, _, (reconnectAttempts (client w)), []. rewrite app_nil_r. split; [|simpl; lia].
    destruct w as [[] ? ? ? ? ? ? ?]; reflexivity.
Qed.

Lemma keeps_send m : ∀ w, ∃ s, session (send m w).2 =
   (client w, sockets w, s, urlAccepted w, intervalTimer w, reconnectTimers w).
Proof.
  intros w. unfold send, console_warn, console_write, modify, gets, bind. simpl.
  destruct (ws (client w)) as [i|]; simpl; [destruct (sockets w !! i) as [[]|]|]; simpl; eauto.
Qed.

Lemma exec_disconnect w :
  client (exec disconnect w) = client w ∧
  sockets (exec disconnect w) =
    match ws (client w) with
    | Some i => alter closing i (sockets w)
    | None => sockets w
    end ∧
  reconnectTimers (exec disconnect w) = reconnectTimers w ∧
  intervalTimer (exec disconnect w) =
    (if pingInterval (client w) then None else intervalTimer w) ∧
  doc (exec disconnect w) = doc w ∧
  sent (exec disconnect w) = sent w ∧
  console (exec disconnect w) = console w.
Proof.
  unfold exec, disconnect, modify, gets, bind, ret. simpl.
  destruct (pingInterval (client w)), (ws (client w)); simpl; done.
Qed.

Section Reachable.
Context {num : Type} `{JsNumber num}.

Lemma step_one_live_socket w (e : Event num) w' :
  one_live_socket w → step w e = Some w' → one_live_socket w'.
Proof.
  intros Hinv Hstep. destruct e as [i|i f|i|i| | | |]; simpl in Hstep.
  - destruct Hinv as [Hlive Hlen].
    destruct (sockets w !! i) as [[]|] eqn:Hi; simplify_eq.
    destruct (exec_onopen (set_sockets <[i:=OPEN]> w)) as (c & d & s & ->).
    split; simpl; [|done]. intros j r Hj Hr.
    destruct (decide (i = j)) as [<-|Hne].
    + apply (Hlive i CONNECTING); done.
    + rewrite list_lookup_insert_ne in Hj by done. eauto.
  - destruct (sockets w !! i) as [[]|]; simplify_eq.
    eapply one_live_socket_session; [apply keeps_onmessage | done].
  - destruct (sockets w !! i) as [[]|]; simplify_eq;
      (eapply one_live_socket_ext; [| | |exact Hinv]); reflexivity.
  - destruct Hinv as [Hlive Hlen].
    assert (∃ r, sockets w !! i = Some r ∧ r ≠ CLOSED
               ∧ w' = exec onclose (set_sockets <[i:=CLOSED]> w)) as (r & Hi & Hr & ->).
    { destruct (sockets w !! i) as [[]|]; simplify_eq; eauto. }
    destruct (Hlive i r Hi Hr) as [Hws Ht].
    destruct (exec_onclose (set_sockets <[i:=CLOSED]> w)) as (c & d & a & t & -> & Hlt).
    split; simpl.
    + intros j r' Hj Hr'. exfalso.
      destruct (decide (i = j)) as [<-|Hne].
      * rewrite list_lookup_insert_eq in Hj by (by eapply lookup_lt_Some). by simplify_eq.
      * rewrite list_lookup_insert_ne in Hj by done.
        destruct (Hlive j r' Hj Hr') as [Hws' _]. congruence.
    + rewrite Ht. simpl. done.
  - destruct Hinv as [Hlive Hlen].
    destruct (reconnectTimers w) as [|t rest] eqn:Ht; simplify_eq.
    assert (rest = []) as -> by (destruct rest; simpl in *; [done | lia]).
    assert (∀ j r, sockets w !! j = Some r → r = CLOSED) as Hclosed.
    { intros j r Hj. destruct (decide (r = CLOSED)) as [|Hr]; [done|].
      destruct (Hlive j r Hj Hr) as [_ ?]; done. }
    unfold exec, connect, newWebSocket, try_catch, console_log, console_error,
      console_write, modify, gets, bind, ret, throw. simpl.
    destruct (urlAccepted w); simpl.
    + split; simpl; [|lia]. intros j r Hj Hr.
      destruct (decide (j < length (sockets w))) as [Hlt|Hge].
      * rewrite lookup_app_l in Hj by done. apply Hclosed in Hj. done.
      * apply lookup_lt_Some in Hj as Hj'. rewrite length_app in Hj'. simpl in Hj'.
        split; [f_equal; lia | done].
    + split; simpl; [|lia]. intros j r Hj Hr. apply Hclosed in Hj. done.
  - destruct (intervalTimer w); simplify_eq.
    unfold exec, pingTick, gets, bind, ret. simpl.
    destruct (isConnected (client w)); [|done].
    destruct (keeps_send ping w) as [s Hs].
    revert Hs Hinv. unfold session, one_live_socket. intros [= -> -> _ _ _ ->]. done.
  - destruct (flashTimers w); simplify_eq. done.
  - simplify_eq. destruct Hinv as [Hlive Hlen].
    destruct (exec_disconnect w) as (Hc & Hs & Ht & _).
    split; [|by rewrite Ht]. rewrite Hc, Hs, Ht. intros j r Hj Hr.
    destruct (ws (client w)) as [i|] eqn:Hws; [|by apply (Hlive j r)].
    destruct (decide (i = j)) as [<-|Hne].
    + rewrite list_lookup_alter_eq in Hj.
      destruct (sockets w !! i) as [r0|] eqn:Hi; simplify_eq/=.
      apply (Hlive i r0 Hi). by destruct r0.
    + rewrite list_lookup_alter_ne in Hj by done. eauto.
Qed.

Lemma run_one_live_socket (es : list (Event num)) w w' :
  one_live_socket w → run w es = Some w' → one_live_socket w'.
Proof.
  revert w. induction es as [|e es IH]; intros w Hinv Hrun; simpl in Hrun.
  - by simplify_eq.
  - destruct (step w e) as [w1|] eqn:Hstep; [|done].
    eapply IH; [|done]. by eapply step_one_live_socket.
Qed.
End Reachable.

Lemma newClient_one_live_socket url d accepted :
  one_live_socket (newClient url d accepted).
Proof.
  destruct accepted; (split; [|simpl; lia]); intros i r Hi Hr.
  - destruct i as [|i]; simpl in Hi; [|done]. done.
  - done.
Qed.

(** ** The connection *)

Lemma closing_idempotent r : closing (closing r) = closing r.
Proof. by destruct r. Qed.

Lemma alter_closing_twice i (l : list ReadyState) :
  alter closing i (alter closing i l) = alter closing i l.
Proof.
  rewrite list_alter_alter_eq. apply list_alter_ext; [|done].
  intros r _. apply closing_idempotent.
Qed.

Lemma send_open m w i :
  ws (client w) = Some i → sockets w !! i = Some OPEN →
  send m w = (Ok tt, set_sent (λ l, l ++ [(i, m)]) w).
Proof.
  intros Hws Hi. unfold send, gets, bind. simpl. by rewrite Hws, Hi.
Qed.

Section Connection.
Context {num : Type} `{JsNumber num}.

(** C9.  On every transport-open event of a run of the client, the
    session becomes open ([isConnected] holds, the socket is OPEN and the
    page shows the online status), the retry count is reset to zero, and
    the request for the initial state, [get_metrics], is sent on the
    socket that opened. *)
Theorem transport_open_resets url d accepted (es : list (Event num)) w i w' :
  run (newClient url d accepted) es = Some w →
  step w (SockOpen i) = Some w' →
  isConnected (client w') = true ∧
  reconnectAttempts (client w') = 0 ∧
  sent w' = sent w ++ [(i, get_metrics)] ∧
  sockets w' !! i = Some OPEN ∧
  statusText (doc w') = (λ _, "System Online") <$> statusText (doc w).
Proof.
  intros Hrun Hstep.
  apply run_one_live_socket in Hrun; [|apply newClient_one_live_socket].
  destruct Hrun as [Hlive _]. simpl in Hstep.
  destruct (sockets w !! i) as [r|] eqn:Hi; [|done].
  assert (r = CONNECTING) as -> by (by destruct r).
  simplify_eq. destruct (Hlive i CONNECTING Hi) as [Hws _]; [done|].
  assert (i < length (sockets w)) as Hlt by (by eapply lookup_lt_Some).
  unfold exec, onopen, onConnect, bind, console_log, console_write, modify. simpl.
  rewrite (send_open get_metrics _ i); simpl;
    [| done | by apply list_lookup_insert_eq].
  repeat split. by apply list_lookup_insert_eq.
Qed.
End Connection.

(** C1, as amended.  [disconnect] is safe and idempotent in every state: it
    never throws and calling it twice is calling it once.  It cancels the
    ping timer and closes the current socket, if there is one: a socket
    that is connecting or open starts closing, a socket already closing or
    closed stays as it is.  It leaves the fields of the client, among them
    [isConnected] and the retry count, and the pending reconnect timers as
    they are. *)
Theorem disconnect_safe_idempotent w :
  (disconnect w).1 = Ok tt ∧
  exec disconnect (exec disconnect w) = exec disconnect w ∧
  intervalTimer (exec disconnect w) =
    (if pingInterval (client w) then None else intervalTimer w) ∧
  sockets (exec disconnect w) =
    match ws (client w) with
    | Some i => alter closing i (sockets w)
    | None => sockets w
    end ∧
  client (exec disconnect w) = client w ∧
  reconnectTimers (exec disconnect w) = reconnectTimers w.
Proof.
  unfold exec, disconnect, modify, gets, bind, ret. simpl.
  destruct w as [c d co so se u it rt ft]. simpl.
  destruct (pingInterval c) eqn:Hp, (ws c) as [i|] eqn:Hws; simpl;
    rewrite ?Hp, ?Hws; unfold set_sockets, set_intervalTimer; simpl;
    rewrite ?alter_closing_twice; done.
Qed.

(** C1, counterexample.  [disconnect] called while the first socket is
    connecting leaves the client disconnected with its socket closing; but
    the close event that follows arms the reconnect timer, the timer
    creates a second socket, and when that socket opens the client is
    connected again.  And a reconnect timer pending when [disconnect] is
    called is still pending afterwards. *)
Lemma disconnect_then_reconnects :
  (λ w, (isConnected (client w), reconnectTimers w, sockets w))
    <$> run (num := Z) started [CallDisconnect]
  = Some (false, [], [CLOSING]) ∧
  (λ w, (isConnected (client w), reconnectAttempts (client w), reconnectTimers w))
    <$> run (num := Z) started [CallDisconnect; SockClose 0]
  = Some (false, 1, [5000%Z]) ∧
  (λ w, (isConnected (client w), ws (client w), sockets w))
    <$> run (num := Z) started [CallDisconnect; SockClose 0; ReconnectTimer; SockOpen 1]
  = Some (true, Some 1, [CLOSED; OPEN]) ∧
  reconnectTimers <$> run (num := Z) started [SockClose 0; CallDisconnect]
  = Some [5000%Z].
Proof. vm_compute. done. Qed.

(** ** Reconnection *)

Section Reconnection.
Context {num : Type} `{JsNumber num}.






End Reconnection.

(** C9, on the dashboard: the first socket of a fresh client opens. *)
Lemma transport_open_resets_witness :
  isConnected (client opened) = true ∧
  reconnectAttempts (client opened) = 0 ∧
  sent opened = sent started ++ [(0, get_metrics)] ∧
  sockets opened !! 0 = Some OPEN ∧
  statusText (doc opened) = (λ _, "System Online") <$> statusText (doc started).
Proof.
  apply (transport_open_resets (num := Z)
           "ws://localhost:8765" dashboard true [] started 0 opened);
    vm_compute; reflexivity.
Defined.



(** ** Liveness *)

Section Liveness.
Context {num : Type} `{JsNumber num}.

(** C4, as amended.  The constructor schedules a timer of period 30 s; while
    the session is open (connected, current socket OPEN) each tick of the
    timer sends a [ping] on the socket and changes nothing else.  The
    receipt of a [pong] is logged on the console and changes nothing else:
    the client keeps no record of the acknowledgment. *)
Theorem liveness_probe :
  (∀ url d accepted, intervalTimer (newClient url d accepted) = Some 30000%Z) ∧
  (∀ w i, isConnected (client w) = true → ws (client w) = Some i →
          sockets w !! i = Some OPEN → is_Some (intervalTimer w) →
          step (num := num) w PingTimer
          = Some (set_sent (λ l, l ++ [(i, ping)]) w)) ∧
  (∀ fields w, assoc (num := num) "type" fields = Some (JStr "pong") →
          onmessage (Text (JObj fields)) w
          = (Ok tt, logged LogInfo "[WS] Received:" "pong" w)).
Proof.
  split; [|split].
  - intros url d []; reflexivity.
  - intros w i Hc Hws Hi [p Hp]. simpl. rewrite Hp.
    unfold exec, pingTick, gets, bind. simpl. rewrite Hc.
    by rewrite (send_open ping w i).
  - intros fields w Hty.
    unfold onmessage, try_catch, handleMessage, bind, lift. simpl.
    rewrite Hty. reflexivity.
Qed.
End Liveness.

(** C4, on the dashboard: a tick of the timer of the opened client, and a
    [pong] received by it. *)
Lemma liveness_probe_witness :
  step (num := Z) opened PingTimer = Some (set_sent (λ l, l ++ [(0, ping)]) opened) ∧
  onmessage (Text (obj "pong" [])) opened
  = (Ok tt, logged LogInfo "[WS] Received:" "pong" opened).
Proof.
  destruct (liveness_probe (num := Z)) as (_ & Htick & Hpong). split.
  - apply (Htick opened 0); [vm_compute; reflexivity ..|].
    exists 30000%Z. vm_compute; reflexivity.
  - apply (Hpong [("type", JStr "pong")] opened). reflexivity.
Defined.

(** C4, counterexample.  The opened client receives a [pong]: its fields
    are what they were, and so are the page and the timers.  Nothing in the
    session has been updated by the acknowledgment. *)
Lemma pong_updates_nothing :
  client (exec (onmessage (Text (obj "pong" []))) opened) = client opened ∧
  doc (exec (onmessage (Text (obj "pong" []))) opened) = doc opened ∧
  session (exec (onmessage (Text (obj "pong" []))) opened) = session opened ∧
  flashTimers (exec (onmessage (Text (obj "pong" []))) opened) = flashTimers opened.
Proof. vm_compute. done. Qed.

(** ** Decoding and dispatch *)

Section Dispatch.
Context {num : Type} `{JsNumber num}.

Lemma kindOfType_None (type : jsval num) :
  kindOfType type = None →
  isStr type "initial" = false ∧ isStr type "metric_update" = false ∧
  isStr type "task_update" = false ∧ isStr type "system_update" = false ∧
  isStr type "pipeline_update" = false ∧ isStr type "pong" = false.
Proof.
  unfold kindOfType. repeat (case_match; try done).
Qed.

Lemma kindOfType_Some (type : jsval num) k d :
  kindOfType type = Some k →
  (if isStr type "initial" then handleInitialData d
   else if isStr type "metric_update" then handleMetricUpdate d
   else if isStr type "task_update" then handleTaskUpdate d
   else if isStr type "system_update" then handleSystemUpdate d
   else if isStr type "pipeline_update" then handlePipelineUpdate d
   else if isStr type "pong" then ret tt
   else console_log "[WS] Unknown message type:" (toStringU type))
  = handlerOf k d.
Proof.
  unfold kindOfType. repeat (case_match; try done); by intros [= <-].
Qed.

(** The handler installed on the socket never throws: what the handlers of
    the messages throw is caught and logged. *)
Lemma onmessage_returns (f : Frame num) w : (onmessage f w).1 = Ok tt.
Proof.
  unfold onmessage, try_catch.
  by destruct (bind _ _ w) as [[[]|e] w'].
Qed.

(** A frame without a kind leaves two lines on the console, or one, and
    nothing else. *)
Lemma onmessage_no_kind (f : Frame num) w :
  kindOf f = None → onmessage f w = (Ok tt, dropDiagnostics f w).
Proof.
  destruct f as [raw|d]; [done|]. unfold kindOf, dropDiagnostics.
  unfold onmessage, try_catch, handleMessage, bind, lift. simpl.
  destruct (getProp d "type") as [type|e]; [|done].
  intros (-> & -> & -> & -> & -> & ->)%kindOfType_None. done.
Qed.

(** A frame with a kind is handed to the handler of the kind. *)
Lemma onmessage_kind d k w :
  kindOf (Text d) = Some k →
  ∃ type, getProp d "type" = Ok type ∧
    onmessage (Text d) w
    = try_catch (handlerOf k d)
        (λ e, console_error "[WS] Error parsing message:" (errorName e))
        (logged LogInfo "[WS] Received:" (toStringU type) w).
Proof.
  unfold kindOf. destruct (getProp d "type") as [type|e] eqn:Hty; [|done].
  intros Hk. exists type. split; [done|].
  unfold onmessage, try_catch, handleMessage, bind, lift. simpl. rewrite Hty.
  rewrite (kindOfType_Some type k d Hk). reflexivity.
Qed.
End Dispatch.

Section Decode.
Context {num : Type} `{JsNumber num}.

(** C5, as amended.  The message handler decides on the frame by parsing it
    and reading its [type], and on nothing else.  A frame that does not
    parse, or parses to null, is reported on the console with the error and
    discarded; a frame whose [type] is none of the six kinds is reported as
    unknown and discarded; neither changes anything but the console.  A frame
    whose [type] is one of the six kinds is handed to the handler of that
    kind whatever fields it carries: no field other than [type] is checked
    before the handler runs. *)
Theorem decode_discriminates_on_type (f : Frame num) w :
  (kindOf f = None → onmessage f w = (Ok tt, dropDiagnostics f w)) ∧
  (∀ d k, f = Text d → kindOf f = Some k →
     ∃ type, getProp d "type" = Ok type ∧
       onmessage f w
       = try_catch (handlerOf k d)
           (λ e, console_error "[WS] Error parsing message:" (errorName e))
           (logged LogInfo "[WS] Received:" (toStringU type) w)).
Proof.
  split.
  - apply onmessage_no_kind.
  - intros d k -> Hk. by apply onmessage_kind.
Qed.

(** C7, as amended.  The message handler never throws, whatever the frame.
    A malformed frame (one that does not parse, or whose kind is not
    recognised) is dropped: it changes neither the page nor the session nor
    the timers, and leaves a diagnostic on the console. *)
Theorem malformed_frames_dropped (f : Frame num) w :
  (onmessage f w).1 = Ok tt ∧
  (kindOf f = None →
     doc (exec (onmessage f) w) = doc w ∧
     session (exec (onmessage f) w) = session w ∧
     flashTimers (exec (onmessage f) w) = flashTimers w ∧
     ∃ diagnostics, diagnostics ≠ [] ∧
       console (exec (onmessage f) w) = console w ++ diagnostics).
Proof.
  split; [apply onmessage_returns|].
  intros Hk. unfold exec. rewrite (onmessage_no_kind f w Hk). simpl.
  unfold dropDiagnostics.
  destruct f as [raw|d]; simpl.
  - repeat split. eexists [_]. split; [done | reflexivity].
  - destruct (getProp d "type"); simpl; repeat split.
    + eexists [_; _]. split; [done|]. by rewrite <- app_assoc.
    + eexists [_]. split; [done | reflexivity].
Qed.

(** C10.  A [metric_update] without an [agent_id] (absent, or falsy) takes
    the system-metric branch of [handleMetricUpdate], which calls a method
    the client does not have.  The TypeError is caught by the message
    handler and logged; the world is what it was but for the two console
    lines: no state of the view model is changed. *)
Theorem system_metric_update_dropped fields w :
  assoc (num := num) "type" fields = Some (JStr "metric_update") →
  truthyU (assoc "agent_id" fields) = false →
  onmessage (Text (JObj fields)) w
  = (Ok tt,
     logged LogError "[WS] Error parsing message:" "TypeError"
       (logged LogInfo "[WS] Received:" "metric_update" w)).
Proof.
  intros Hty Hid.
  unfold onmessage, try_catch, handleMessage, handleMetricUpdate, bind, lift. simpl.
  rewrite Hty. simpl.
  destruct (assoc "agent_id" fields) as [a|]; simpl in *; [rewrite Hid|]; done.
Qed.
End Decode.

(** C5, on the dashboard: a frame that is not JSON, and a [task_update]. *)
Lemma decode_discriminates_on_type_witness :
  onmessage notJson opened = (Ok tt, dropDiagnostics notJson opened) ∧
  ∃ type, getProp (obj "task_update" []) "type" = Ok type ∧
    onmessage bareTaskUpdate opened
    = try_catch (handlerOf task_update (obj "task_update" []))
        (λ e, console_error "[WS] Error parsing message:" (errorName e))
        (logged LogInfo "[WS] Received:" (toStringU type) opened).
Proof.
  split.
  - apply (proj1 (decode_discriminates_on_type notJson opened)). reflexivity.
  - apply (proj2 (decode_discriminates_on_type bareTaskUpdate opened)
             (obj "task_update" []) task_update); reflexivity.
Defined.

(** C5, counterexample.  A [task_update] without [task_id], [status],
    [description] and [agent] fails the validation the specification
    describes.  The client does not reject it: nothing is reported as an
    error, and a card for the task undefined is added to the first column
    of the board. *)
Lemma unvalidated_frame_applied :
  spec_valid bareTaskUpdate = false ∧
  filter (λ e, log_level e = LogError) (console (exec (onmessage bareTaskUpdate) opened))
    = [] ∧
  kanban (doc opened) = [[]; []; []; []] ∧
  kanban (doc (exec (onmessage bareTaskUpdate) opened))
  = [[{| task_className := "task-card undefined";
         data_task_id := Some "undefined";
         task_id_text := "undefined";
         task_title := "Task";
         task_agent := "undefined";
         task_duration := None |}]; []; []; []].
Proof. vm_compute. done. Qed.

(** C7, on the dashboard: a frame of an unknown kind. *)
Lemma malformed_frames_dropped_witness :
  (onmessage unknownKind opened).1 = Ok tt ∧
  doc (exec (onmessage unknownKind) opened) = doc opened ∧
  session (exec (onmessage unknownKind) opened) = session opened ∧
  flashTimers (exec (onmessage unknownKind) opened) = flashTimers opened ∧
  ∃ diagnostics, diagnostics ≠ [] ∧
    console (exec (onmessage unknownKind) opened) = console opened ++ diagnostics.
Proof.
  destruct (malformed_frames_dropped unknownKind opened) as [Hok Hdrop].
  split; [exact Hok|]. apply Hdrop. reflexivity.
Defined.

(** C7, counterexample.  After a frame that is not JSON and after a frame of
    an unknown kind, the fields of the client, the page, the sockets, the
    messages sent and the timers are what they were: the drop is counted
    nowhere.  Its only trace is the console line. *)
Lemma drops_are_not_counted :
  client (exec (onmessage notJson) opened) = client opened ∧
  client (exec (onmessage unknownKind) opened) = client opened ∧
  set_console (λ _, []) (exec (onmessage notJson) opened)
    = set_console (λ _, []) opened ∧
  set_console (λ _, []) (exec (onmessage unknownKind) opened)
    = set_console (λ _, []) opened.
Proof. vm_compute. done. Qed.

(** C10, on the dashboard. *)
Lemma system_metric_update_dropped_witness :
  onmessage systemMetric opened
  = (Ok tt,
     logged LogError "[WS] Error parsing message:" "TypeError"
       (logged LogInfo "[WS] Received:" "metric_update" opened)).
Proof.
  apply (system_metric_update_dropped (num := Z)); reflexivity.
Defined.

(** ** System updates *)

Ltac not_in_list :=
  let Hin := fresh "Hin" in
  intros Hin;
  repeat (apply elem_of_cons in Hin as [Hin|Hin]; [first [congruence | done]|]);
  by apply elem_of_nil in Hin.

Lemma only_elements_refl ids w : only_elements ids w w.
Proof. by repeat split. Qed.

Lemma only_elements_trans ids w1 w2 w3 :
  only_elements ids w1 w2 → only_elements ids w2 w3 → only_elements ids w1 w3.
Proof.
  intros (Hs & Ha & Hk & Hp & Hi & Ht & He) (Hs' & Ha' & Hk' & Hp' & Hi' & Ht' & He').
  repeat split; try congruence.
  intros id Hid. by rewrite He', He.
Qed.

Lemma getElementById_elements id d :
  id ≠ "" → getElementById id d = elements d !! id.
Proof. intros Hid. unfold getElementById. by rewrite bool_decide_false. Qed.

Lemma assignText_writes id text w :
  id ≠ "agent-grid" → writes id text w (set_doc (assignText id text) w).
Proof.
  intros Hid. unfold assignText. rewrite bool_decide_false by done.
  split; [repeat split|]; simpl.
  - intros j Hj. apply lookup_alter_ne. intros ->. apply Hj. by left.
  - rewrite lookup_alter_eq. by destruct (elements (doc w) !! id).
Qed.

Lemma assignStyle_keeps_text id tr col w :
  only_elements [id] w (set_doc (assignStyle id tr col) w) ∧
  textContent <$> elements (doc (set_doc (assignStyle id tr col) w)) !! id
  = textContent <$> elements (doc w) !! id.
Proof.
  split; [repeat split|]; simpl.
  - intros j Hj. apply lookup_alter_ne. intros ->. apply Hj. by left.
  - rewrite lookup_alter_eq. by destruct (elements (doc w) !! id).
Qed.

Section SystemUpdate.
Context {num : Type} `{JsNumber num}.

Lemma flashElement_keeps_text id w :
  ∃ w', flashElement id w = (Ok tt, w') ∧
    only_elements [id] w w' ∧
    textContent <$> elements (doc w') !! id = textContent <$> elements (doc w) !! id.
Proof.
  unfold flashElement, gets, bind. simpl.
  destruct (getElementById id (doc w)); simpl.
  - eexists. split; [reflexivity|].
    destruct (assignStyle_keeps_text id "color 0.3s ease" "#3b82f6" w) as [Ho Ht].
    split; [exact Ho | exact Ht].
  - exists w. split; [done|]. split; [apply only_elements_refl | done].
Qed.

Lemma updateMetricValue_writes id text w :
  id ≠ "" → id ≠ "agent-grid" →
  ∃ w', updateMetricValue id text w = (Ok tt, w') ∧ writes id text w w'.
Proof.
  intros Hne Hgrid. unfold updateMetricValue, gets, bind. simpl.
  rewrite getElementById_elements by done.
  destruct (elements (doc w) !! id) as [e|] eqn:He; simpl.
  - destruct (flashElement_keeps_text id (set_doc (assignText id text) w))
      as (w' & -> & Ho & Ht).
    exists w'. split; [done|].
    destruct (assignText_writes id text w Hgrid) as [Ho' Ht'].
    split; [by eapply only_elements_trans|].
    rewrite Ht, Ht'. done.
  - exists w. split; [done|]. split; [apply only_elements_refl|].
    by rewrite He.
Qed.
End SystemUpdate.

Section SystemUpdateApplied.
Context {num : Type} `{JsNumber num}.

(** The three steps of [handleSystemUpdate], each on its own element. *)
Lemma tcr_step (v : jsval num) w :
  ∃ r w',
    (match v with
     | Some _ =>
         let* shown := lift (callToFixed1 v) in
         updateMetricValue "tcr" (shown +:+ "%")
     | None => ret tt
     end) w = (r, w') ∧
    (v = None → w' = w) ∧
    only_elements ["tcr"] w w' ∧
    (∀ n, v = Some (JNum n) →
          r = Ok tt ∧
          textContent <$> elements (doc w') !! "tcr"
          = (λ _, num_toFixed1 n +:+ "%") <$> elements (doc w) !! "tcr") ∧
    (numberOrAbsent v → r = Ok tt) ∧
    (r ≠ Ok tt → w' = w).
Proof.
  destruct v as [[| b | n | s | items | fs]|]; simpl.
  3: { unfold bind, lift. simpl.
       destruct (updateMetricValue_writes "tcr" (num_toFixed1 n +:+ "%") w)
         as (w' & -> & Ho & Ht); [done..|].
       exists (Ok tt), w'. split; [done|]. split; [by intros [=]|].
       split; [apply Ho|]. split; [by intros ? [= <-]|]. done. }
  6: { exists (Ok tt), w. split; [done|]. split; [done|].
       split; [apply only_elements_refl|]. split; [by intros ? [=]|]. done. }
  all: exists (Throw TypeError), w; (split; [reflexivity|]);
    (split; [by intros [=]|]); (split; [apply only_elements_refl|]);
    (split; [by intros ? [=]|]); (split; [by intros [|[? [=]]] | done]).
Qed.

Lemma velocity_step (v : jsval num) w :
  ∃ r w',
    (match v with
     | Some _ =>
         let* rounded := lift (MathRound v) in
         updateMetricValue "velocity" rounded
     | None => ret tt
     end) w = (r, w') ∧
    (v = None → w' = w) ∧
    only_elements ["velocity"] w w' ∧
    (convertibleU v = true → r = Ok tt) ∧
    (∀ x, v = Some x → convertible x = true →
          textContent <$> elements (doc w') !! "velocity"
          = (λ _, mathRound (Some x)) <$> elements (doc w) !! "velocity") ∧
    (r ≠ Ok tt → w' = w).
Proof.
  destruct v as [x|]; simpl.
  - unfold MathRound, bind, lift. simpl. destruct (convertible x) eqn:Hx.
    + destruct (updateMetricValue_writes "velocity" (mathRound (Some x)) w)
        as (w' & -> & Ho & Ht); [done..|].
      exists (Ok tt), w'. split; [done|]. split; [by intros [=]|].
      split; [apply Ho|]. split; [done|]. split; [|done]. by intros ? [= <-].
    + exists (Throw TypeError), w. split; [done|]. split; [by intros [=]|].
      split; [apply only_elements_refl|]. split; [done|]. split; [|done].
      intros ? [= <-]. by rewrite Hx.
  - exists (Ok tt), w. split; [done|]. split; [done|].
    split; [apply only_elements_refl|]. split; [done|]. split; [by intros ? [=] | done].
Qed.

Lemma total_agents_step (v : jsval num) w :
  ∃ r w',
    (match v with
     | Some _ =>
         let* d := gets doc in
         match getElementById "total-agents" d with
         | Some _ =>
             let* text := lift (TextOf v) in
             modify_doc (assignText "total-agents" text)
         | None => throw TypeError
         end
     | None => ret tt
     end) w = (r, w') ∧
    (v = None → w' = w) ∧
    only_elements ["total-agents"] w w' ∧
    (∀ x, v = Some x → convertible x = true →
          textContent <$> elements (doc w') !! "total-agents"
          = (λ _, textOf (Some x)) <$> elements (doc w) !! "total-agents").
Proof.
  destruct v as [x|]; simpl.
  - unfold bind, gets. simpl. rewrite getElementById_elements by done.
    destruct (elements (doc w) !! "total-agents") as [e|] eqn:He; simpl.
    + unfold TextOf, lift. simpl. destruct (convertible x) eqn:Hx.
      * eexists _, _. split; [reflexivity|].
        destruct (assignText_writes "total-agents" (textOf (Some x)) w) as [Ho Ht];
          [done|].
        split; [by intros [=]|]. split; [apply Ho|].
        intros ? [= <-] _. rewrite He in Ht. exact Ht.
      * exists (Throw TypeError), w. split; [done|]. split; [by intros [=]|].
        split; [apply only_elements_refl|]. intros ? [= <-]. by rewrite Hx.
    + exists (Throw TypeError), w. split; [done|]. split; [by intros [=]|].
      split; [apply only_elements_refl|]. intros ? _ _. by rewrite He.
  - exists (Ok tt), w. split; [done|]. split; [done|].
    split; [apply only_elements_refl | by intros ? [=]].
Qed.
End SystemUpdateApplied.

Lemma bind_run {A B} (m : M A) (k : A → M B) w r w' :
  m w = (r, w') →
  bind m k w = match r with Ok a => k a w' | Throw e => (Throw e, w') end.
Proof. intros Hm. unfold bind. by rewrite Hm. Qed.

Lemma bind_lift_Ok {A B} (a : A) (k : A → M B) w : bind (lift (Ok a)) k w = k a w.
Proof. done. Qed.

Lemma bind_lift_Ok_fun {A B} (a : A) (k : A → M B) : bind (lift (Ok a)) k = k a.
Proof. done. Qed.

Ltac run_binds :=
  repeat first [rewrite bind_lift_Ok | rewrite bind_lift_Ok_fun]; cbv beta.

Section SystemUpdateWhole.
Context {num : Type} `{JsNumber num}.

Lemma systemFieldOf_other id :
  id ∉ ["tcr"; "velocity"; "total-agents"] → systemFieldOf id = None.
Proof.
  intros Hid. unfold systemFieldOf.
  repeat (case_bool_decide; [subst; destruct Hid; by repeat constructor|]). done.
Qed.

Lemma handleSystemUpdate_partial (fields : list (string * json num)) w :
  ∃ r w', handleSystemUpdate (JObj fields) w = (r, w') ∧
          partiallyUpdated fields w w'.
Proof.
  unfold handleSystemUpdate. simpl getProp.
  rewrite bind_lift_Ok.
  destruct (tcr_step (assoc "system_tcr" fields) w)
    as (r1 & w1 & E1 & Hnone1 & Ho1 & Hnum1 & Hok1 & Hthrow1).
  rewrite (bind_run _ _ _ _ _ E1).
  destruct r1 as [[]|e1].
  2: { exists (Throw e1), w1. split; [done|].
       rewrite (Hthrow1 ltac:(done)).
       split; [done|]. split; [apply only_elements_refl|].
       split; [|split].
       - intros n Hn. by destruct (Hnum1 n Hn).
       - intros Hv. by specialize (Hok1 Hv).
       - intros Hv. by specialize (Hok1 Hv). }
  rewrite bind_lift_Ok.
  destruct (velocity_step (assoc "system_velocity" fields) w1)
    as (r2 & w2 & E2 & Hnone2 & Ho2 & Hok2 & Hvel2 & Hthrow2).
  rewrite (bind_run _ _ _ _ _ E2).
  destruct Ho1 as (Hs1 & Ha1 & Hk1 & Hp1 & Hi1 & Ht1 & He1).
  destruct r2 as [[]|e2].
  2: { exists (Throw e2), w2. split; [done|].
       rewrite (Hthrow2 ltac:(done)) in *.
       assert (∀ id, (∀ name, systemFieldOf id = Some name → assoc name fields = None) →
                     elements (doc w1) !! id = elements (doc w) !! id) as Hframe.
       { intros id Habsent.
         destruct (decide (id = "tcr")) as [->|Hne]; [|apply He1; not_in_list].
         by rewrite (Hnone1 (Habsent "system_tcr" eq_refl)). }
       split; [exact Hframe|]. split.
       { repeat split; try congruence.
         intros id Hid. apply Hframe. intros name.
         by rewrite (systemFieldOf_other id Hid). }
       split; [|split].
       - intros n Hn. by destruct (Hnum1 n Hn) as [_ <-].
       - intros _ v Hv Hconv. exfalso.
         assert (Ok tt = Throw e2) as Heq; [|done].
         symmetry. apply Hok2. by rewrite Hv.
       - intros _ Hconv. exfalso.
         assert (Ok tt = Throw e2) as Heq; [|done].
         symmetry. by apply Hok2. }
  rewrite bind_lift_Ok.
  destruct (total_agents_step (assoc "total_agents" fields) w2)
    as (r3 & w3 & E3 & Hnone3 & Ho3 & Htot3).
  exists r3, w3. split; [exact E3|].
  destruct Ho2 as (Hs2 & Ha2 & Hk2 & Hp2 & Hi2 & Ht2 & He2).
  destruct Ho3 as (Hs3 & Ha3 & Hk3 & Hp3 & Hi3 & Ht3 & He3).
  assert (∀ id, (∀ name, systemFieldOf id = Some name → assoc name fields = None) →
                elements (doc w3) !! id = elements (doc w) !! id) as Hframe.
  { intros id Habsent.
    assert (elements (doc w3) !! id = elements (doc w2) !! id) as ->.
    { destruct (decide (id = "total-agents")) as [->|Hne]; [|apply He3; not_in_list].
      by rewrite (Hnone3 (Habsent "total_agents" eq_refl)). }
    assert (elements (doc w2) !! id = elements (doc w1) !! id) as ->.
    { destruct (decide (id = "velocity")) as [->|Hne]; [|apply He2; not_in_list].
      by rewrite (Hnone2 (Habsent "system_velocity" eq_refl)). }
    destruct (decide (id = "tcr")) as [->|Hne]; [|apply He1; not_in_list].
    by rewrite (Hnone1 (Habsent "system_tcr" eq_refl)). }
  split; [exact Hframe|]. split.
  { repeat split; try congruence.
    intros id Hid. apply Hframe. intros name.
    by rewrite (systemFieldOf_other id Hid). }
  split; [|split].
  - intros n Hn. destruct (Hnum1 n Hn) as [_ <-].
    rewrite He3, He2 by not_in_list. done.
  - intros _ v Hv Hconv. rewrite He3 by not_in_list.
    rewrite (Hvel2 v Hv Hconv). by rewrite He1 by not_in_list.
  - intros _ _ v Hv Hconv. rewrite (Htot3 v Hv Hconv).
    by rewrite He2, He1 by not_in_list.
Qed.
End SystemUpdateWhole.

Section SystemUpdateClaim.
Context {num : Type} `{JsNumber num}.

(** C6.  A [system_update] is applied as a partial update: an element of
    the page changes only if it is the element of a field present in the
    event ([#tcr] for [system_tcr], [#velocity] for [system_velocity],
    [#total-agents] for [total_agents]), so that every absent field keeps
    its prior value; the agent cards, the board, the pipeline, the status
    and the session stay as they are.  The fields present in a valid event
    are written: [system_tcr], a number, with one decimal and a percent
    sign, [system_velocity] rounded and [total_agents] as it is, for the
    values that JavaScript converts to a number and to a string (all but
    the objects that have an own [toString] property). *)
Theorem system_update_partial (fields : list (string * json num)) w :
  assoc "type" fields = Some (JStr "system_update") →
  partiallyUpdated fields w (exec (onmessage (Text (JObj fields))) w).
Proof.
  intros Hty. unfold exec.
  destruct (onmessage_kind (JObj fields) system_update w) as (type & Hget & ->).
  { unfold kindOf. simpl. by rewrite Hty. }
  unfold try_catch. simpl handlerOf.
  destruct (handleSystemUpdate_partial fields
              (logged LogInfo "[WS] Received:" (toStringU type) w))
    as (r & w' & -> & Hp).
  destruct r as [[]|e]; exact Hp.
Qed.
End SystemUpdateClaim.

(** C6, on the dashboard: an update with [system_tcr] and [total_agents]
    and without [system_velocity]. *)
Lemma system_update_partial_witness :
  partiallyUpdated
    [("type", JStr "system_update"); ("system_tcr", JNum 87%Z); ("total_agents", JNum 12%Z)]
    opened (exec (onmessage partialSystemUpdate) opened).
Proof.
  apply (system_update_partial (num := Z)). reflexivity.
Defined.

(** The same update, evaluated: the two elements of the fields present are
    written, the third keeps its text. *)
Example system_update_partial_run :
  (λ id, textContent <$> elements (doc (exec (onmessage partialSystemUpdate) opened)) !! id)
    <$> ["tcr"; "velocity"; "total-agents"]
  = [Some "87.0%"; Some ""; Some "12"].
Proof. vm_compute. done. Qed.

(** ** Metric updates *)







Section MetricUpdate.
Context {num : Type} `{JsNumber num}.



End MetricUpdate.

Section MetricUpdateClaim.
Context {num : Type} `{JsNumber num}.

End MetricUpdateClaim.



(** The same update, evaluated: one card after one application, the same
    card after two. *)
Example metric_update_twice :
  agentCards (doc (exec (onmessage agentMetric) (exec (onmessage agentMetric) opened)))
  = [{| data_agent_id := "AGT-1"; agent_id_text := "AGT-1";
        agent_status := "Active"; agent_health := "healthy";
        agent_tcr := Some "90.0%" |}].
Proof. vm_compute. done. Qed.

(** ** Initial state *)

Global Instance sameBoard_preorder : PreOrder sameBoard.
Proof.
  split; [intros w; reflexivity|]. unfold sameBoard. intros w1 w2 w3 ? ?. congruence.
Qed.

Global Instance sameAgents_preorder : PreOrder sameAgents.
Proof.
  split; [intros w; reflexivity|]. unfold sameAgents. intros w1 w2 w3 ? ?. congruence.
Qed.

Global Instance agentsKept_preorder : PreOrder agentsKept.
Proof.
  split; [intros w; unfold agentsKept; reflexivity|]. unfold agentsKept. intros w1 w2 w3 ? ?. by etrans.
Qed.

Global Instance gridKept_preorder : PreOrder gridKept.
Proof.
  split; [intros w; unfold gridKept; tauto|].
  unfold gridKept. intros w1 w2 w3 ? ?. tauto.
Qed.


Lemma preserves_weaken (R R' : relation World) {A} (m : M A) :
  (∀ w w', R w w' → R' w w') → preserves R m → preserves R' m.
Proof. intros HR Hm w. apply HR, Hm. Qed.

Section Preserves.
Context (R : relation World) `{!PreOrder R}.

Lemma preserves_ret {A} (a : A) : preserves R (ret a).
Proof. intros w. reflexivity. Qed.

Lemma preserves_throw {A} e : preserves R (@throw A e).
Proof. intros w. reflexivity. Qed.

Lemma preserves_lift {A} (r : outcome A) : preserves R (lift r).
Proof. intros w. reflexivity. Qed.

Lemma preserves_gets {A} (f : World → A) : preserves R (gets f).
Proof. intros w. reflexivity. Qed.

Lemma preserves_bind {A B} (m : M A) (k : A → M B) :
  preserves R m → (∀ a, preserves R (k a)) → preserves R (bind m k).
Proof.
  intros Hm Hk w. unfold bind. specialize (Hm w).
  destruct (m w) as [[a|e] w']; simpl in *; [|done].
  etrans; [exact Hm | apply Hk].
Qed.

Lemma preserves_bind_lift_Ok {A B} (a : A) (k : A → M B) :
  preserves R (k a) → preserves R (bind (lift (Ok a)) k).
Proof. intros Hk w. apply Hk. Qed.

Lemma preserves_forEach {A} (f : A → M unit) l :
  (∀ a, a ∈ l → preserves R (f a)) → preserves R (forEach f l).
Proof.
  induction l as [|x l IH]; intros Hf; simpl; [apply preserves_ret|].
  apply preserves_bind; [apply Hf; by left|].
  intros _. apply IH. intros a Ha. apply Hf. by right.
Qed.
End Preserves.

Ltac preserves_step :=
  first
    [ apply preserves_ret; tc_solve | apply preserves_throw; tc_solve
    | apply preserves_lift; tc_solve | apply preserves_gets; tc_solve
    | apply preserves_bind; [tc_solve | | intros ?]
    | match goal with
      | |- preserves _ (match ?x with _ => _ end) => destruct x
      | |- preserves _ (if ?b then _ else _) => destruct b
      end ].

Lemma fmap_alter_same {A B} (g : A → B) (f : A → A) k (l : list A) :
  (∀ x, g (f x) = g x) → g <$> alter f k l = g <$> l.
Proof.
  intros Hg. revert k. induction l as [|x l IH]; intros k; [done|].
  destruct k as [|k]; simpl.
  - by rewrite Hg.
  - f_equal. apply IH.
Qed.



Section Conversions.
Context {num : Type} `{JsNumber num}.

Lemma ToString_Ok (v : json num) s : ToString v = Ok s → s = toString v.
Proof. unfold ToString. destruct (convertible v); by intros [= <-]. Qed.



Lemma TextOf_Ok (v : jsval num) s : TextOf v = Ok s → s = textOf v.
Proof. unfold TextOf. destruct (convertibleU v); by intros [= <-]. Qed.
End Conversions.

Section Initial.
Context {num : Type} `{JsNumber num}.


Lemma flashElement_sameAgents id : preserves sameAgents (flashElement id).
Proof. unfold flashElement. repeat preserves_step; by intros w. Qed.






Lemma createTaskCard_sameAgents (t : json num) :
  preserves sameAgents (createTaskCard t).
Proof. unfold createTaskCard. repeat preserves_step; by intros w. Qed.

Lemma updateRecentTasks_sameAgents (tasks : json num) :
  preserves sameAgents (updateRecentTasks tasks).
Proof.
  unfold updateRecentTasks.
  apply preserves_bind; [tc_solve | by intros w |]. intros _.
  destruct tasks; try (apply preserves_throw; tc_solve).
  apply preserves_forEach; [tc_solve|]. intros t _.
  apply createTaskCard_sameAgents.
Qed.




End Initial.

Section InitialClaim.
Context {num : Type} `{JsNumber num}.
















End InitialClaim.



(** * Further properties of the client *)

(** ** The life of a client *)

Lemma exec_onclose_eq w :
  exec onclose w =
  let w1 :=
    set_doc (set_statusText (fmap (λ _, "Connecting...")))
      (set_doc (set_indicator (fmap (λ _,
          {| ind_active := false; ind_background := "#ef4444" |})))
        (set_client (set_isConnected false)
          (logged LogInfo "[WS] Connection closed" "" w))) in
  if bool_decide (reconnectAttempts (client w) < maxReconnectAttempts (client w))
  then set_reconnectTimers (λ l, l ++ [reconnectInterval (client w)])
         (logged LogInfo "[WS] Reconnecting... (Attempt)"
            (pretty (S (reconnectAttempts (client w))))
            (set_client (set_reconnectAttempts (S (reconnectAttempts (client w)))) w1))
  else w1.
Proof.
  unfold exec, onclose, updateConnectionStatus, console_log, console_write,
    modify_doc, modify, gets, bind, ret. simpl.
  by case_bool_decide.
Qed.

Lemma exec_connect_eq w :
  exec connect w =
  if urlAccepted w
  then set_client (set_ws (Some (length (sockets w))))
         (set_sockets (λ l, l ++ [CONNECTING])
            (logged LogInfo "[WS] Connecting to" (wsUrl (client w)) w))
  else logged LogError "[WS] Failed to create WebSocket:" "SyntaxError"
         (logged LogInfo "[WS] Connecting to" (wsUrl (client w)) w).
Proof.
  unfold exec, connect, newWebSocket, try_catch, console_log, console_error,
    console_write, modify, gets, bind, ret, throw. simpl.
  by destruct (urlAccepted w).
Qed.

Lemma exec_pingTick w :
  ∃ s c, exec pingTick w = set_console (λ _, c) (set_sent (λ _, s) w).
Proof.
  destruct w as [cl d co so se u it rt ft].
  unfold exec, pingTick, send, console_warn, console_write, modify, gets, bind, ret.
  simpl. destruct (isConnected cl); simpl;
    [|eexists _, _; unfold set_console, set_sent; simpl; reflexivity].
  destruct (ws cl) as [i|]; simpl; [destruct (so !! i) as [[]|]|]; simpl;
    eexists _, _; unfold set_console, set_sent; simpl; reflexivity.
Qed.

Section Life.
Context {num : Type} `{JsNumber num}.

Lemma newClient_configured url d accepted : configured (newClient url d accepted).
Proof.
  destruct accepted; repeat split; simpl; try lia;
    by intros t ?%elem_of_nil.
Qed.

Lemma step_configured w (e : Event num) w' :
  configured w → step w e = Some w' → configured w'.
Proof.
  intros (Hmax & Hint & Hping & Hle & Htimers) Hstep.
  destruct e as [i|i f|i|i| | | |]; simpl in Hstep.
  - destruct (sockets w !! i) as [[]|]; simplify_eq.
    destruct (exec_onopen (set_sockets <[i:=OPEN]> w)) as (c & d & s & ->).
    repeat split; simpl; try done. lia.
  - destruct (sockets w !! i) as [[]|]; simplify_eq.
    pose proof (keeps_onmessage f w) as Hk. unfold session in Hk.
    injection Hk as Hc _ _ _ _ Ht. unfold configured, exec. by rewrite Hc, Ht.
  - destruct (sockets w !! i) as [[]|]; simplify_eq; by repeat split.
  - assert (w' = exec onclose (set_sockets <[i:=CLOSED]> w)) as ->.
    { by destruct (sockets w !! i) as [[]|]; simplify_eq. }
    rewrite exec_onclose_eq. simpl. rewrite Hmax, Hint.
    case_bool_decide; repeat split; simpl; try done; try lia.
    intros t [Ht| ->%list_elem_of_singleton]%elem_of_app; [by apply Htimers | done].
  - destruct (reconnectTimers w) as [|t rest] eqn:Ht; simplify_eq.
    rewrite exec_connect_eq. simpl.
    destruct (urlAccepted w); repeat split; simpl; try done;
      intros t' Ht'; apply Htimers; by right.
  - destruct (intervalTimer w); simplify_eq.
    destruct (exec_pingTick w) as (s & c & ->). by repeat split.
  - destruct (flashTimers w); simplify_eq. by repeat split.
  - simplify_eq. destruct (exec_disconnect w) as (Hc & _ & Ht & _).
    unfold configured. by rewrite Hc, Ht.
Qed.

Lemma run_configured (es : list (Event num)) w w' :
  configured w → run w es = Some w' → configured w'.
Proof.
  revert w. induction es as [|e es IH]; intros w Hinv Hrun; simpl in Hrun.
  - by simplify_eq.
  - destruct (step w e) as [w1|] eqn:Hstep; [|done].
    eapply IH; [|done]. by eapply step_configured.
Qed.

(** X1.  In every run of a client the retry count never exceeds the cap of
    10, at most one reconnect timer is pending and its delay is 5 s, at most
    one socket is not closed, and no socket is alive while a reconnect timer
    is pending: the client never holds two connections, nor a connection
    and a pending retry. *)
Theorem one_connection_bounded_retries url d accepted (es : list (Event num)) w :
  run (newClient url d accepted) es = Some w →
  reconnectAttempts (client w) ≤ 10 ∧
  length (reconnectTimers w) ≤ 1 ∧
  (∀ t, t ∈ reconnectTimers w → t = 5000%Z) ∧
  (∀ i j ri rj, sockets w !! i = Some ri → sockets w !! j = Some rj →
                ri ≠ CLOSED → rj ≠ CLOSED → i = j) ∧
  (reconnectTimers w ≠ [] → ∀ i r, sockets w !! i = Some r → r = CLOSED).
Proof.
  intros Hrun.
  pose proof (run_configured es _ w (newClient_configured url d accepted) Hrun)
    as (_ & _ & _ & Hle & Htimers).
  pose proof (run_one_live_socket es _ w (newClient_one_live_socket url d accepted) Hrun)
    as [Hlive Hlen].
  split; [exact Hle|]. split; [exact Hlen|]. split; [exact Htimers|]. split.
  - intros i j ri rj Hi Hj Hri Hrj.
    destruct (Hlive i ri Hi Hri) as [Hwi _], (Hlive j rj Hj Hrj) as [Hwj _].
    congruence.
  - intros Hpending i r Hi. destruct (decide (r = CLOSED)) as [|Hr]; [done|].
    by destruct (Hlive i r Hi Hr) as [_ ?].
Qed.
End Life.

Lemma exec_pingTick_sent w :
  ∃ l, sent (exec pingTick w) = sent w ++ l ∧ List.filter isGetMetrics l = [].
Proof.
  unfold exec, pingTick, send, console_warn, console_write, modify, gets, bind, ret.
  simpl. destruct (isConnected (client w)); simpl;
    [|exists []; by rewrite app_nil_r].
  destruct (ws (client w)) as [i|]; simpl;
    [destruct (sockets w !! i) as [[]|]|]; simpl;
    try (exists []; by rewrite app_nil_r).
  by exists [(i, ping)].
Qed.

Section Sending.
Context {num : Type} `{JsNumber num}.

Lemma step_urlAccepted w (e : Event num) w' :
  step w e = Some w' → urlAccepted w' = urlAccepted w.
Proof.
  intros Hstep. destruct e as [i|i f|i|i| | | |]; simpl in Hstep.
  - destruct (sockets w !! i) as [[]|]; simplify_eq.
    by destruct (exec_onopen (set_sockets <[i:=OPEN]> w)) as (c & d & s & ->).
  - destruct (sockets w !! i) as [[]|]; simplify_eq.
    pose proof (keeps_onmessage f w) as Hk. unfold session in Hk.
    by injection Hk as _ _ _ Hu _ _.
  - by destruct (sockets w !! i) as [[]|]; simplify_eq.
  - assert (w' = exec onclose (set_sockets <[i:=CLOSED]> w)) as ->.
    { by destruct (sockets w !! i) as [[]|]; simplify_eq. }
    rewrite exec_onclose_eq. simpl. by case_bool_decide.
  - destruct (reconnectTimers w); simplify_eq.
    rewrite exec_connect_eq. simpl. by destruct (urlAccepted w) eqn:Hu.
  - destruct (intervalTimer w); simplify_eq.
    by destruct (exec_pingTick w) as (s & c & ->).
  - by destruct (flashTimers w); simplify_eq.
  - simplify_eq. unfold exec, disconnect, modify, gets, bind, ret. simpl.
    by destruct (pingInterval (client w)), (ws (client w)).
Qed.

Lemma run_urlAccepted (es : list (Event num)) w w' :
  run w es = Some w' → urlAccepted w' = urlAccepted w.
Proof.
  revert w. induction es as [|e es IH]; intros w Hrun; simpl in Hrun.
  - by simplify_eq.
  - destruct (step w e) as [w1|] eqn:Hstep; [|done].
    rewrite (IH _ Hrun). by eapply step_urlAccepted.
Qed.

(** What one event adds to the requests for the initial state. *)
Lemma step_get_metrics w (e : Event num) w' :
  one_live_socket w → step w e = Some w' →
  List.filter isGetMetrics (sent w')
  = List.filter isGetMetrics (sent w) ++ ((λ i, (i, get_metrics)) <$> opens [e]).
Proof.
  intros [Hlive _] Hstep. destruct e as [i|i f|i|i| | | |]; simpl in *;
    rewrite ?app_nil_r.
  - destruct (sockets w !! i) as [r|] eqn:Hi; [|done].
    assert (r = CONNECTING) as -> by (by destruct r). simplify_eq.
    destruct (Hlive i CONNECTING Hi) as [Hws _]; [done|].
    assert (i < length (sockets w)) as Hlt by (by eapply lookup_lt_Some).
    unfold exec, onopen, onConnect, bind, console_log, console_write, modify. simpl.
    rewrite (send_open get_metrics _ i); simpl;
      [| done | by apply list_lookup_insert_eq].
    by rewrite List.filter_app.
  - destruct (sockets w !! i) as [[]|]; simplify_eq.
    pose proof (keeps_onmessage f w) as Hk. unfold session in Hk.
    injection Hk as _ _ Hs _ _ _. unfold exec. by rewrite Hs.
  - by destruct (sockets w !! i) as [[]|]; simplify_eq.
  - assert (w' = exec onclose (set_sockets <[i:=CLOSED]> w)) as ->.
    { by destruct (sockets w !! i) as [[]|]; simplify_eq. }
    rewrite exec_onclose_eq. simpl. by case_bool_decide.
  - destruct (reconnectTimers w); simplify_eq.
    rewrite exec_connect_eq. simpl. by destruct (urlAccepted w) eqn:Hu.
  - destruct (intervalTimer w); simplify_eq.
    destruct (exec_pingTick_sent w) as (l & -> & Hl).
    by rewrite List.filter_app, Hl, app_nil_r.
  - by destruct (flashTimers w); simplify_eq.
  - simplify_eq. by destruct (exec_disconnect w) as (_ & _ & _ & _ & _ & -> & _).
Qed.

Lemma run_get_metrics (es : list (Event num)) w w' :
  one_live_socket w → run w es = Some w' →
  List.filter isGetMetrics (sent w')
  = List.filter isGetMetrics (sent w) ++ ((λ i, (i, get_metrics)) <$> opens es).
Proof.
  revert w. induction es as [|e es IH]; intros w Hinv Hrun; simpl in Hrun.
  - simplify_eq. by rewrite app_nil_r.
  - destruct (step w e) as [w1|] eqn:Hstep; [|done].
    rewrite (IH w1 (step_one_live_socket _ _ _ Hinv Hstep) Hrun).
    rewrite (step_get_metrics w e w1 Hinv Hstep), <- app_assoc. f_equal.
    rewrite <- fmap_app. f_equal. by destruct e.
Qed.

(** X2.  In every run of a client, the requests for the initial state that
    it has sent are exactly one [get_metrics] per socket that opened, each
    on the socket that opened, in the order of the openings: none is sent
    at any other moment, and none is lost. *)
Theorem get_metrics_once_per_open url d accepted (es : list (Event num)) w :
  run (newClient url d accepted) es = Some w →
  List.filter isGetMetrics (sent w) = (λ i, (i, get_metrics)) <$> opens es.
Proof.
  intros Hrun.
  rewrite (run_get_metrics es _ w (newClient_one_live_socket url d accepted) Hrun).
  by destruct accepted.
Qed.

Lemma step_intervalTimer w (e : Event num) w' :
  pingInterval (client w) = true → step w e = Some w' →
  intervalTimer w' = if isDisconnect e then None else intervalTimer w.
Proof.
  intros Hping Hstep. destruct e as [i|i f|i|i| | | |]; simpl in *.
  - destruct (sockets w !! i) as [[]|]; simplify_eq.
    by destruct (exec_onopen (set_sockets <[i:=OPEN]> w)) as (c & d & s & ->).
  - destruct (sockets w !! i) as [[]|]; simplify_eq.
    pose proof (keeps_onmessage f w) as Hk. unfold session in Hk.
    by injection Hk as _ _ _ _ Hi _.
  - by destruct (sockets w !! i) as [[]|]; simplify_eq.
  - assert (w' = exec onclose (set_sockets <[i:=CLOSED]> w)) as ->.
    { by destruct (sockets w !! i) as [[]|]; simplify_eq. }
    rewrite exec_onclose_eq. simpl. by case_bool_decide.
  - destruct (reconnectTimers w); simplify_eq.
    rewrite exec_connect_eq. simpl. by destruct (urlAccepted w) eqn:Hu.
  - destruct (intervalTimer w) eqn:Hi; simplify_eq.
    destruct (exec_pingTick w) as (s & c & ->). done.
  - by destruct (flashTimers w); simplify_eq.
  - simplify_eq. destruct (exec_disconnect w) as (_ & _ & _ & -> & _).
    by rewrite Hping.
Qed.

(** X3.  The client has one ping timer for its whole life.  In a run in
    which [disconnect] is never called the timer of the constructor, of
    period 30 s, is still scheduled, whatever closes and reconnections
    happened; once [disconnect] has been called the timer is gone and
    nothing schedules it again, also when the client reconnects. *)
Theorem ping_timer_lifetime url d accepted (es : list (Event num)) w :
  run (newClient url d accepted) es = Some w →
  intervalTimer w = if existsb isDisconnect es then None else Some 30000%Z.
Proof.
  assert (∀ w0, configured w0 → run w0 es = Some w →
            intervalTimer w
            = if existsb isDisconnect es then None else intervalTimer w0) as Hgen.
  { induction es as [|e es IH]; intros w0 Hc Hrun; simpl in Hrun.
    - by simplify_eq.
    - destruct (step w0 e) as [w1|] eqn:Hstep; [|done].
      rewrite (IH w1 (step_configured _ _ _ Hc Hstep) Hrun).
      destruct Hc as (_ & _ & Hping & _).
      rewrite (step_intervalTimer w0 e w1 Hping Hstep). simpl.
      by destruct (isDisconnect e), (existsb isDisconnect es). }
  intros Hrun. rewrite (Hgen _ (newClient_configured url d accepted) Hrun).
  by destruct accepted.
Qed.

(** X4.  A client whose URL the WebSocket constructor rejects never
    connects and never retries: in every run it has no socket, it is not
    connected, no reconnect timer is pending, it has sent nothing, and the
    page is the page it was given. *)
Theorem rejected_url_never_connects url d (es : list (Event num)) w :
  run (newClient url d false) es = Some w →
  ws (client w) = None ∧ sockets w = [] ∧ isConnected (client w) = false ∧
  reconnectTimers w = [] ∧ sent w = [] ∧ flashTimers w = [] ∧ doc w = d.
Proof.
  assert (∀ w0, (ws (client w0) = None ∧ sockets w0 = [] ∧
                 isConnected (client w0) = false ∧ reconnectTimers w0 = [] ∧
                 sent w0 = [] ∧ flashTimers w0 = [] ∧ doc w0 = d) →
            run w0 es = Some w →
            ws (client w) = None ∧ sockets w = [] ∧ isConnected (client w) = false ∧
            reconnectTimers w = [] ∧ sent w = [] ∧ flashTimers w = [] ∧ doc w = d)
    as Hgen.
  { induction es as [|e es IH]; intros w0 Hdead Hrun; simpl in Hrun.
    - by simplify_eq.
    - destruct (step w0 e) as [w1|] eqn:Hstep; [|done].
      apply (IH w1); [|done]. clear IH Hrun.
      destruct Hdead as (Hws & Hso & Hcon & Ht & Hse & Hf & Hd).
      destruct e as [i|i f|i|i| | | |]; simpl in Hstep;
        rewrite ?Hso, ?Ht, ?Hf in Hstep; try done.
      + destruct (intervalTimer w0); simplify_eq.
        unfold exec, pingTick, gets, bind, ret. simpl. by rewrite Hcon.
      + simplify_eq. unfold exec, disconnect, modify, gets, bind, ret. simpl.
        rewrite Hws. by destruct (pingInterval (client w0)). }
  apply Hgen. by repeat split.
Qed.

(** X5.  Whenever a socket closes in a run of a client with a valid URL, be
    it after a failure to connect, after an open session or after
    [disconnect], the client is marked disconnected and the page shows
    "Connecting...".  If retries are left the retry is counted, one timer
    of 5 s is armed, and when it fires the client is connecting on a fresh
    socket, the closed one never being used again; if none is left nothing
    is armed. *)
Theorem close_schedules_reconnect url d (es : list (Event num)) w i w1 :
  run (newClient url d true) es = Some w →
  step (num := num) w (SockClose i) = Some w1 →
  isConnected (client w1) = false ∧
  statusText (doc w1) = (λ _, "Connecting...") <$> statusText (doc w) ∧
  sockets w1 = <[i:=CLOSED]> (sockets w) ∧
  if bool_decide (reconnectAttempts (client w) < 10)
  then reconnectAttempts (client w1) = S (reconnectAttempts (client w)) ∧
       reconnectTimers w1 = [5000%Z] ∧
       ∃ w2, step (num := num) w1 ReconnectTimer = Some w2 ∧
             ws (client w2) = Some (length (sockets w)) ∧
             sockets w2 = <[i:=CLOSED]> (sockets w) ++ [CONNECTING] ∧
             reconnectAttempts (client w2) = S (reconnectAttempts (client w)) ∧
             reconnectTimers w2 = []
  else reconnectAttempts (client w1) = reconnectAttempts (client w) ∧
       reconnectTimers w1 = [].
Proof.
  intros Hrun Hstep.
  pose proof (run_configured es _ w (newClient_configured url d true) Hrun)
    as (Hmax & Hint & _ & _ & _).
  pose proof (run_one_live_socket es _ w (newClient_one_live_socket url d true) Hrun)
    as [Hlive _].
  pose proof (run_urlAccepted es _ w Hrun) as Hurl. simpl in Hurl.
  simpl in Hstep.
  assert (∃ r, sockets w !! i = Some r ∧ r ≠ CLOSED
             ∧ w1 = exec onclose (set_sockets <[i:=CLOSED]> w)) as (r & Hi & Hr & ->).
  { destruct (sockets w !! i) as [[]|]; simplify_eq; eauto. }
  destruct (Hlive i r Hi Hr) as [_ Ht].
  rewrite exec_onclose_eq. cbv zeta. simpl. rewrite Hmax.
  case_bool_decide; simpl; rewrite ?Hint, ?Ht; simpl; [|done].
  repeat split. eexists. split; [reflexivity|].
  rewrite exec_connect_eq. simpl. rewrite Hurl. simpl.
  by rewrite length_insert.
Qed.
End Sending.

(** X1, on the dashboard, after the outage. *)
Lemma one_connection_bounded_retries_witness :
  let w := afterOutage in
  reconnectAttempts (client w) ≤ 10 ∧
  length (reconnectTimers w) ≤ 1 ∧
  (∀ t, t ∈ reconnectTimers w → t = 5000%Z) ∧
  (∀ i j ri rj, sockets w !! i = Some ri → sockets w !! j = Some rj →
                ri ≠ CLOSED → rj ≠ CLOSED → i = j) ∧
  (reconnectTimers w ≠ [] → ∀ i r, sockets w !! i = Some r → r = CLOSED).
Proof.
  apply (one_connection_bounded_retries (num := Z)
           "ws://localhost:8765" dashboard true outage afterOutage).
  vm_compute. reflexivity.
Defined.

(** X2, on the dashboard: two sockets opened during the outage. *)
Lemma get_metrics_once_per_open_witness :
  List.filter isGetMetrics (sent afterOutage) = [(0, get_metrics); (1, get_metrics)].
Proof.
  apply (get_metrics_once_per_open (num := Z)
           "ws://localhost:8765" dashboard true outage afterOutage).
  vm_compute. reflexivity.
Defined.

(** X3, on the dashboard: the outage ends with [disconnect]. *)
Lemma ping_timer_lifetime_witness : intervalTimer afterOutage = None.
Proof.
  apply (ping_timer_lifetime (num := Z)
           "ws://localhost:8765" dashboard true outage afterOutage).
  vm_compute. reflexivity.
Defined.

(** X4, on the dashboard: ticks of the ping timer and a [disconnect] on the
    client of a rejected URL. *)
Lemma rejected_url_never_connects_witness :
  let w := default rejected (run (num := Z) rejected [PingTimer; CallDisconnect]) in
  ws (client w) = None ∧ sockets w = [] ∧ isConnected (client w) = false ∧
  reconnectTimers w = [] ∧ sent w = [] ∧ flashTimers w = [] ∧ doc w = dashboard.
Proof.
  apply (rejected_url_never_connects (num := Z)
           "localhost:8765" dashboard [PingTimer; CallDisconnect]).
  vm_compute. reflexivity.
Defined.

(** X5, on the dashboard: the open session of the outage closes. *)
Lemma close_schedules_reconnect_witness :
  let w := default started (run (num := Z) started [SockOpen 0; PingTimer]) in
  let w1 := default w (step (num := Z) w (SockClose 0)) in
  isConnected (client w1) = false ∧
  statusText (doc w1) = (λ _, "Connecting...") <$> statusText (doc w) ∧
  sockets w1 = <[0:=CLOSED]> (sockets w) ∧
  if bool_decide (reconnectAttempts (client w) < 10)
  then reconnectAttempts (client w1) = S (reconnectAttempts (client w)) ∧
       reconnectTimers w1 = [5000%Z] ∧
       ∃ w2, step (num := Z) w1 ReconnectTimer = Some w2 ∧
             ws (client w2) = Some (length (sockets w)) ∧
             sockets w2 = <[0:=CLOSED]> (sockets w) ++ [CONNECTING] ∧
             reconnectAttempts (client w2) = S (reconnectAttempts (client w)) ∧
             reconnectTimers w2 = []
  else reconnectAttempts (client w1) = reconnectAttempts (client w) ∧
       reconnectTimers w1 = [].
Proof.
  apply (close_schedules_reconnect (num := Z)
           "ws://localhost:8765" dashboard [SockOpen 0; PingTimer]);
    vm_compute; reflexivity.
Defined.

(** ** Messages and the page *)

Section MessagesAndPage.
Context {num : Type} `{JsNumber num}.

(** X6.  Receiving a message never acts on the connection, whatever the
    frame: the fields of the client (its socket, its connected flag, its
    retry count), the sockets, the messages sent and the ping and reconnect
    timers are what they were.  The handlers of messages write the page, the
    console and the flash timers only; in particular they never send. *)
Theorem messages_leave_connection (f : Frame num) w :
  client (exec (onmessage f) w) = client w ∧
  sockets (exec (onmessage f) w) = sockets w ∧
  sent (exec (onmessage f) w) = sent w ∧
  intervalTimer (exec (onmessage f) w) = intervalTimer w ∧
  reconnectTimers (exec (onmessage f) w) = reconnectTimers w.
Proof.
  pose proof (keeps_onmessage f w) as Hk. unfold session in Hk. unfold exec.
  by injection Hk as -> -> -> _ -> ->.
Qed.

(** X7.  Every flash ends.  The timers armed by [flashElement] can all
    fire, one after the other; when they have, none is pending, every
    element that was flashed has its colour cleared, and nothing else has
    changed: not the texts, not the other elements, not the cards, the
    board or the pipeline, not the session. *)
Theorem flashes_are_cleared w :
  ∃ w', run (num := num) w (replicate (length (flashTimers w)) FlashTimer) = Some w' ∧
        flashTimers w' = [] ∧
        session w' = session w ∧
        agentCards (doc w') = agentCards (doc w) ∧
        kanban (doc w') = kanban (doc w) ∧
        pipeline (doc w') = pipeline (doc w) ∧
        (∀ id e, id ∈ flashTimers w → elements (doc w') !! id = Some e →
                 style_color e = "") ∧
        (∀ id, id ∉ flashTimers w → elements (doc w') !! id = elements (doc w) !! id) ∧
        (∀ id, textContent <$> elements (doc w') !! id
               = textContent <$> elements (doc w) !! id).
Proof.
  assert (∀ ids,
    ∀ w, flashTimers w = ids →
    ∃ w', run (num := num) w (replicate (length ids) FlashTimer) = Some w' ∧
          flashTimers w' = [] ∧
          session w' = session w ∧
          agentCards (doc w') = agentCards (doc w) ∧
          kanban (doc w') = kanban (doc w) ∧
          pipeline (doc w') = pipeline (doc w) ∧
          (∀ id e, id ∈ ids → elements (doc w') !! id = Some e → style_color e = "") ∧
          (∀ id, id ∉ ids → elements (doc w') !! id = elements (doc w) !! id) ∧
          (∀ id, textContent <$> elements (doc w') !! id
                 = textContent <$> elements (doc w) !! id)) as Hfire.
  { clear w. induction ids as [|id ids IH]; intros w Hw.
    - exists w. repeat split; try done. by intros id e ?%elem_of_nil.
    - simpl. rewrite Hw.
      set (w1 := set_doc (assignColor id "") (set_flashTimers (λ _, ids) w)).
      destruct (IH w1 eq_refl) as (w' & Hrun & Hnone & Hs & Ha & Hk & Hp & Hcol & Hout & Htext).
      exists w'. split; [exact Hrun|]. split; [exact Hnone|].
      split; [by rewrite Hs|]. split; [by rewrite Ha|].
      split; [by rewrite Hk|]. split; [by rewrite Hp|].
      split; [|split].
      + intros id' e Hin Hlook.
        destruct (decide (id' ∈ ids)) as [Hrest|Hrest]; [by eapply Hcol|].
        apply elem_of_cons in Hin as [->|Hin]; [|done].
        rewrite (Hout id Hrest) in Hlook. simpl in Hlook.
        rewrite lookup_alter_eq in Hlook.
        destruct (elements (doc w) !! id); simplify_eq/=. done.
      + intros id' Hout'. apply not_elem_of_cons in Hout' as [Hne Hrest].
        rewrite (Hout id' Hrest). simpl. by rewrite lookup_alter_ne.
      + intros id'. rewrite Htext. simpl. rewrite lookup_alter.
        case_decide; subst; [|done]. by destruct (elements (doc w) !! id'). }
  by apply Hfire.
Qed.
End MessagesAndPage.

(** ** The pipeline *)


Lemma findIndex_None {A} (p : A → bool) (l : list A) :
  findIndex p l = None → ∀ j x, l !! j = Some x → p x = false.
Proof.
  induction l as [|y l IH]; simpl; [done|].
  destruct (p y) eqn:Hy; [done|].
  destruct (findIndex p l); simpl; [done|].
  intros _ [|j] x Hx; simpl in Hx; [by simplify_eq | by eapply IH].
Qed.


Section Pipeline.
Context {num : Type} `{JsNumber num}.


End Pipeline.


(** X7, on the dashboard: the flash of a system update. *)
Lemma flashes_are_cleared_witness :
  let w := exec (onmessage partialSystemUpdate) opened in
  flashTimers w = ["tcr"] ∧
  ∃ w', run (num := Z) w [FlashTimer] = Some w' ∧
        flashTimers w' = [] ∧
        (∀ e, elements (doc w') !! "tcr" = Some e → style_color e = "").
Proof.
  intros w. split; [vm_compute; reflexivity|].
  destruct (flashes_are_cleared (num := Z) w)
    as (w' & Hrun & Hnone & _ & _ & _ & _ & Hcol & _).
  exists w'. split; [exact Hrun|]. split; [exact Hnone|].
  intros e. apply (Hcol "tcr"). vm_compute. by left.
Defined.

(** ** Agent cards *)

Global Instance labelsKept_preorder : PreOrder labelsKept.
Proof.
  split; [intros w; unfold labelsKept; reflexivity|].
  unfold labelsKept. intros w1 w2 w3 ? ?. by etrans.
Qed.

Lemma sameAgents_labelsKept w w' : sameAgents w w' → labelsKept w w'.
Proof. unfold sameAgents, labelsKept. by intros ->. Qed.

Section AgentCards.
Context {num : Type} `{JsNumber num}.

Lemma updateAgentMetric_labelsKept (a metrics : json num) :
  preserves labelsKept (updateAgentMetric a metrics).
Proof.
  unfold updateAgentMetric, createAgentCard.
  repeat preserves_step; intros w; unfold labelsKept; simpl.
  - by rewrite fmap_alter_same.
  - rewrite fmap_app. by apply prefix_app_r.
Qed.

Lemma handleMetricUpdate_labelsKept (data : json num) :
  preserves labelsKept (handleMetricUpdate data).
Proof.
  unfold handleMetricUpdate, updateSystemMetric.
  repeat (apply updateAgentMetric_labelsKept || preserves_step).
Qed.

Lemma handleTaskUpdate_sameAgents (data : json num) :
  preserves sameAgents (handleTaskUpdate data).
Proof.
  unfold handleTaskUpdate.
  repeat (apply createTaskCard_sameAgents || apply flashElement_sameAgents
          || preserves_step); by intros w.
Qed.

Lemma handleSystemUpdate_sameAgents (data : json num) :
  preserves sameAgents (handleSystemUpdate data).
Proof.
  unfold handleSystemUpdate, updateMetricValue.
  repeat (apply flashElement_sameAgents || preserves_step); by intros w.
Qed.

Lemma handlePipelineUpdate_sameAgents (data : json num) :
  preserves sameAgents (handlePipelineUpdate data).
Proof. unfold handlePipelineUpdate. repeat preserves_step; by intros w. Qed.

(** X9.  Only an [initial] event can take an agent card off the page or
    change what it says of its agent.  After any other frame the cards that
    were on the page are still there, in the same order, each with its id,
    its status label and its health class; a [metric_update] rewrites at
    most the rate of a card, so the health class of a card stays the one
    computed when the card was created, whatever rates follow. *)
Theorem agent_cards_keep_labels (f : Frame num) w :
  kindOf f ≠ Some initial → labelsKept w (exec (onmessage f) w).
Proof.
  intros Hkind. unfold exec.
  destruct (kindOf f) as [k|] eqn:Hk.
  2: { rewrite (onmessage_no_kind f w Hk). unfold labelsKept.
       destruct f as [raw|d]; simpl; [done|].
       by destruct (getProp d "type"). }
  destruct f as [raw|d]; [done|].
  destruct (onmessage_kind d k w Hk) as (type & _ & ->).
  unfold try_catch.
  assert (preserves labelsKept (handlerOf k d)) as Hkeeps.
  { destruct k; simpl; try done.
    - apply handleMetricUpdate_labelsKept.
    - apply (preserves_weaken sameAgents _ _ sameAgents_labelsKept),
        handleTaskUpdate_sameAgents.
    - apply (preserves_weaken sameAgents _ _ sameAgents_labelsKept),
        handleSystemUpdate_sameAgents.
    - apply (preserves_weaken sameAgents _ _ sameAgents_labelsKept),
        handlePipelineUpdate_sameAgents.
    - apply preserves_ret; tc_solve. }
  specialize (Hkeeps (logged LogInfo "[WS] Received:" (toStringU type) w)).
  by destruct (handlerOf k d _) as [[[]|e] w'].
Qed.
End AgentCards.

(** X9, on the dashboard: the rate of agent AGT-1 falls from 90 to 10. *)
Lemma agent_cards_keep_labels_witness :
  labelsKept (exec (onmessage agentMetric) opened)
             (exec (onmessage lowMetric) (exec (onmessage agentMetric) opened)).
Proof.
  apply (agent_cards_keep_labels (num := Z)). vm_compute. by intros [=].
Defined.

(** The card of AGT-1 after the two updates: the new rate, the old health. *)
Example stale_health_class :
  agentCards (doc (exec (onmessage lowMetric) (exec (onmessage agentMetric) opened)))
  = [{| data_agent_id := "AGT-1"; agent_id_text := "AGT-1";
        agent_status := "Active"; agent_health := "healthy";
        agent_tcr := Some "10.0%" |}].
Proof. vm_compute. done. Qed.

(** ** Task cards *)


Section TaskCards.
Context {num : Type} `{JsNumber num}.






End TaskCards.


(** ** Task updates *)










Lemma setTaskClass_id s c : data_task_id (setTaskClass s c) = data_task_id c.
Proof. done. Qed.

Section TaskUpdate.
Context {num : Type} `{JsNumber num}.


End TaskUpdate.

Section TaskUpdateClaim.
Context {num : Type} `{JsNumber num}.

End TaskUpdateClaim.


(** A task id with a backslash: the selector looks for [az], the card with
    the id [a\z] is not found again and the second update adds a second
    card. *)
Example task_update_escaped_id_twice :
  let update : json Z := JObj [("task_id", JStr "a\z"); ("status", JStr "done")] in
  taskIds (exec (handleTaskUpdate update) (exec (handleTaskUpdate update) opened))
  = ["a\z"; "a\z"].
Proof. vm_compute. done. Qed.

(** A task id with a double quote: the selector is none and [querySelector]
    throws.  An agent id that is markup: the embedding does not follow the
    code there. *)
Example quoted_task_id_throws :
  let id := String "a" (String "034" (String "b" EmptyString)) in
  (handleTaskUpdate (JObj [("task_id", JStr id); ("status", JStr "done")] : json Z)
     opened).1 = Throw SyntaxError ∧
  (handleMetricUpdate (JObj [("agent_id", JStr "<b>A</b>")] : json Z) opened).1
  = Throw Unmodelled.
Proof. vm_compute. done. Qed.

(** ** One card for one agent *)

Global Instance agentsDistinct_preorder : PreOrder agentsDistinct.
Proof.
  split; [intros w; unfold agentsDistinct; tauto|].
  unfold agentsDistinct. intros w1 w2 w3 ? ?. tauto.
Qed.

Lemma sameAgents_agentsDistinct w w' : sameAgents w w' → agentsDistinct w w'.
Proof. unfold sameAgents, agentsDistinct, agentIds. by intros ->. Qed.

Lemma preserves_try_catch (R : relation World) `{!PreOrder R} m h :
  preserves R m → (∀ e, preserves R (h e)) → preserves R (try_catch m h).
Proof.
  intros Hm Hh w. unfold try_catch. specialize (Hm w).
  destruct (m w) as [[a|e] w1]; simpl in *; [done|].
  etrans; [exact Hm | apply Hh].
Qed.

Lemma console_write_sameAgents l text arg : preserves sameAgents (console_write l text arg).
Proof. by intros w. Qed.

Section Distinct.
Context {num : Type} `{JsNumber num}.

(** [updateAgentMetric] finds the card of the agent or creates it, when the
    selector looks for the id as it stands: the agents with a card are the
    same, or the agent was not among them and comes last. *)
Lemma updateAgentMetric_ids (a metrics : json num) w :
  (∀ s, ToString a = Ok s → cssStringValue s = Some s) →
  let w' := (updateAgentMetric a metrics w).2 in
  agentIds w' = agentIds w ∨
  ((toString a ∉ agentIds w) ∧ agentIds w' = agentIds w ++ [toString a]).
Proof.
  intros Hplain. unfold updateAgentMetric.
  destruct (ToString a) as [s|e] eqn:Hs; [|by left].
  pose proof (ToString_Ok a s Hs) as ->.
  run_binds. unfold attributeSelector. rewrite (Hplain _ eq_refl). run_binds.
  unfold createAgentCard. rewrite Hs.
  unfold modify_doc, modify, bind, gets, lift, ret. simpl.
  destruct (findIndex _ (agentCards (doc w))) as [k|] eqn:Hfind.
  - left. repeat case_match; simplify_eq; simpl; try done.
    unfold agentIds. simpl. by rewrite fmap_alter_same.
  - assert (toString a ∉ agentIds w) as Hnew.
    { intros (c & Hc & [j Hj]%list_elem_of_lookup)%list_elem_of_fmap.
      pose proof (findIndex_None _ _ Hfind j c Hj) as Hp.
      by apply bool_decide_eq_false in Hp. }
    repeat case_match; simplify_eq; simpl; auto;
      right; (split; [done|]); unfold agentIds; simpl; by rewrite fmap_app.
Qed.

Lemma updateAgentMetric_distinct (a metrics : json num) :
  (∀ s, ToString a = Ok s → cssStringValue s = Some s) →
  preserves agentsDistinct (updateAgentMetric a metrics).
Proof.
  intros Hplain w Hnodup.
  destruct (updateAgentMetric_ids a metrics w Hplain) as [->|[Hnew ->]]; [done|].
  apply NoDup_app. split; [done|]. split; [|apply NoDup_singleton].
  by intros x Hx ->%list_elem_of_singleton.
Qed.

Lemma assignText_distinct id text :
  preserves agentsDistinct (modify_doc (assignText id text)).
Proof.
  intros w Hnodup. unfold agentIds, assignText. simpl.
  case_bool_decide; simpl; [constructor | done].
Qed.

Lemma flashElement_distinct id : preserves agentsDistinct (flashElement id).
Proof.
  apply (preserves_weaken sameAgents _ _ sameAgents_agentsDistinct),
    flashElement_sameAgents.
Qed.

Lemma console_write_distinct l text arg :
  preserves agentsDistinct (console_write l text arg).
Proof.
  apply (preserves_weaken sameAgents _ _ sameAgents_agentsDistinct),
    console_write_sameAgents.
Qed.

Lemma updateAgentMetrics_distinct (agents : json num) :
  (∀ entries, objectEntries agents = Ok entries →
     ∀ id, id ∈ entries.*1 → cssStringValue id = Some id) →
  preserves agentsDistinct (updateAgentMetrics agents).
Proof.
  intros Hplain. unfold updateAgentMetrics.
  destruct (objectEntries agents) as [entries|e]; [|apply preserves_lift; tc_solve].
  apply preserves_bind_lift_Ok.
  apply preserves_forEach; [tc_solve|]. intros [id metrics] Hin.
  apply updateAgentMetric_distinct. intros s [= <-].
  apply (Hplain entries eq_refl). by apply (list_elem_of_fmap_2 fst _ (id, metrics)).
Qed.

Lemma handleInitialData_distinct (fields : list (string * json num)) :
  (∀ id, id ∈ frameAgents (Text (JObj fields)) → cssStringValue id = Some id) →
  preserves agentsDistinct (handleInitialData (JObj fields)).
Proof.
  intros Hplain. unfold handleInitialData. simpl getProp.
  apply preserves_bind; [tc_solve | apply console_write_distinct | intros _].
  apply preserves_bind_lift_Ok.
  apply preserves_bind; [tc_solve | | intros _].
  { unfold whenTruthy, updateSystemMetrics.
    repeat (apply assignText_distinct || apply flashElement_distinct
            || (apply preserves_forEach; [tc_solve | intros ? _])
            || preserves_step). }
  apply preserves_bind_lift_Ok.
  apply preserves_bind; [tc_solve | | intros _].
  { unfold whenTruthy.
    destruct (assoc "agents" fields) as [v|] eqn:Hv; [|apply preserves_ret; tc_solve].
    destruct (truthy v); [|apply preserves_ret; tc_solve].
    apply updateAgentMetrics_distinct. intros entries Hentries id Hid.
    apply Hplain. simpl. rewrite Hv, Hentries. apply elem_of_app. by right. }
  apply preserves_bind_lift_Ok.
  apply (preserves_weaken sameAgents _ _ sameAgents_agentsDistinct).
  unfold whenTruthy. repeat (apply updateRecentTasks_sameAgents || preserves_step).
Qed.

Lemma handleMetricUpdate_distinct (fields : list (string * json num)) :
  (∀ id, id ∈ frameAgents (Text (JObj fields)) → cssStringValue id = Some id) →
  preserves agentsDistinct (handleMetricUpdate (JObj fields)).
Proof.
  intros Hplain. unfold handleMetricUpdate, updateSystemMetric. simpl getProp.
  apply preserves_bind_lift_Ok.
  destruct (assoc "agent_id" fields) as [a|] eqn:Ha; [|apply preserves_throw; tc_solve].
  destruct (truthy a); [|apply preserves_throw; tc_solve].
  apply updateAgentMetric_distinct. intros s ->%ToString_Ok.
  apply Hplain. simpl. rewrite Ha. apply elem_of_app. left. by left.
Qed.

Lemma handleMessage_distinct (d : json num) :
  (∀ id, id ∈ frameAgents (Text d) → cssStringValue id = Some id) →
  preserves agentsDistinct (handleMessage d).
Proof.
  intros Hplain. unfold handleMessage, console_log.
  destruct d as [| b | n | s | items | fields];
    try (repeat (apply console_write_distinct || preserves_step); fail).
  repeat (apply console_write_distinct
          || (apply handleInitialData_distinct; exact Hplain)
          || (apply handleMetricUpdate_distinct; exact Hplain)
          || apply (preserves_weaken sameAgents _ _ sameAgents_agentsDistinct),
               handleTaskUpdate_sameAgents
          || apply (preserves_weaken sameAgents _ _ sameAgents_agentsDistinct),
               handleSystemUpdate_sameAgents
          || apply (preserves_weaken sameAgents _ _ sameAgents_agentsDistinct),
               handlePipelineUpdate_sameAgents
          || preserves_step).
Qed.

(** X12.  No agent gets a second card from a frame whose agent ids are
    plain.  If the agent cards of the page carry different agent ids, so do
    the cards after the frame, whatever its kind, when the selector finds
    the agent ids of the frame as they stand (they have no backslash, double
    quote or line break) and the handling of the frame stays within the
    embedding (no markup goes into a card): a card is created only for an
    agent that has none. *)
Theorem one_card_per_agent (f : Frame num) w :
  (∀ id, id ∈ frameAgents f → cssStringValue id = Some id) →
  modelled f w →
  NoDup (agentIds w) → NoDup (agentIds (exec (onmessage f) w)).
Proof.
  intros Hplain _. unfold exec.
  assert (preserves agentsDistinct (onmessage f)) as Hkeeps; [|apply Hkeeps].
  unfold onmessage, console_error.
  apply preserves_try_catch; [tc_solve| |intros e; apply console_write_distinct].
  destruct f as [raw|d]; simpl JSON_parse.
  - by intros w0 ?.
  - apply preserves_bind_lift_Ok. by apply handleMessage_distinct.
Qed.
End Distinct.

(** X12, on the dashboard: two metric updates for agent AGT-1. *)
Lemma one_card_per_agent_witness :
  NoDup (agentIds (exec (onmessage lowMetric) (exec (onmessage agentMetric) opened))).
Proof.
  apply (one_card_per_agent (num := Z) lowMetric).
  - intros id ->%list_elem_of_singleton. reflexivity.
  - intros d [= <-]. vm_compute. by intros [=].
  - vm_compute. apply NoDup_singleton.
Defined.

(** ** The system metrics of an initial event *)

Lemma only_elements_weaken ids ids' w w' :
  (∀ id, id ∈ ids → id ∈ ids') → only_elements ids w w' → only_elements ids' w w'.
Proof.
  intros Hsub (Hs & Ha & Hk & Hp & Hi & Ht & He). repeat split; try done.
  intros id Hid. apply He. intros Hin. by apply Hid, Hsub.
Qed.

Section SystemMetrics.
Context {num : Type} `{JsNumber num}.

Lemma updateMetricValue_only id text w :
  id ≠ "agent-grid" →
  ∃ w', updateMetricValue id text w = (Ok tt, w') ∧
        only_elements [id] w w' ∧
        (id ≠ "" → textContent <$> elements (doc w') !! id
                   = (λ _, text) <$> elements (doc w) !! id).
Proof.
  intros Hgrid. destruct (decide (id = "")) as [->|Hid].
  - exists w. split; [done|]. split; [apply only_elements_refl | done].
  - destruct (updateMetricValue_writes id text w Hid Hgrid) as (w' & Hrun & Ho & Ht).
    by exists w'.
Qed.

(** X13.  [updateSystemMetrics] shows every metric of the object on the
    element that has its name as id.  On an object whose keys are
    different, none of which is the id of the agent grid, and whose values
    convert to strings (none is an object with an own [toString] property),
    the loop completes; every key that is the id of an element of the page
    has its value as the text of that element, and a key that is not is
    skipped; the other elements, the agent cards, the board, the pipeline,
    the connection status and the client are what they were. *)
Theorem system_metrics_each_shown (fs : list (string * json num)) w :
  NoDup fs.*1 → "agent-grid" ∉ fs.*1 →
  (∀ id v, (id, v) ∈ fs → convertible v = true) →
  ∃ w', updateSystemMetrics (JObj fs) w = (Ok tt, w') ∧
        only_elements fs.*1 w w' ∧
        (∀ id v, (id, v) ∈ fs → id ≠ "" →
                 textContent <$> elements (doc w') !! id
                 = (λ _, textOf (Some v)) <$> elements (doc w) !! id).
Proof.
  revert w. induction fs as [|[k v] fs IH]; intros w Hnodup Hgrid Hconv.
  - exists w. split; [done|]. split; [apply only_elements_refl|].
    by intros id v ?%elem_of_nil.
  - simpl in Hnodup, Hgrid. apply NoDup_cons in Hnodup as [Hk Hnodup].
    apply not_elem_of_cons in Hgrid as [Hgk Hgrid].
    destruct (updateMetricValue_only k (textOf (Some v)) w) as (w1 & Hrun1 & Ho1 & Ht1);
      [done|].
    destruct (IH w1 Hnodup Hgrid) as (w' & Hrun & Ho & Ht).
    { intros id v' Hin. apply (Hconv id v'). by right. }
    exists w'. split; [|split].
    + assert (updateSystemMetrics (JObj ((k, v) :: fs)) w
              = bind (updateMetricValue k (textOf (Some v)))
                  (λ _, updateSystemMetrics (JObj fs)) w) as ->.
      { unfold updateSystemMetrics, updateMetricValue. simpl objectEntries.
        run_binds. simpl forEach. unfold TextOf at 1. simpl convertibleU.
        rewrite (Hconv k v ltac:(by left)). by run_binds. }
      unfold bind at 1. by rewrite Hrun1.
    + apply (only_elements_trans _ w w1 w').
      * apply (only_elements_weaken [k]); [|done].
        intros id ->%list_elem_of_singleton. by left.
      * apply (only_elements_weaken fs.*1); [|done]. intros id Hid. by right.
    + intros id v' [[= -> ->]|Hin]%elem_of_cons Hid.
      * destruct Ho as (_ & _ & _ & _ & _ & _ & He).
        rewrite (He k Hk). by apply Ht1.
      * assert (id ≠ k) as Hne.
        { intros ->. apply Hk. by apply (list_elem_of_fmap_2 fst _ (k, v')). }
        destruct Ho1 as (_ & _ & _ & _ & _ & _ & He1).
        rewrite (Ht id v' Hin Hid), (He1 id); [done|].
        by intros ?%list_elem_of_singleton.
Qed.
End SystemMetrics.

(** X13, on the dashboard: the rate and a metric that has no element. *)
Lemma system_metrics_each_shown_witness :
  ∃ w', updateSystemMetrics (JObj [("tcr", JStr "93%"); ("uptime", JNum 7%Z)]) opened
        = (Ok tt, w') ∧
        textContent <$> elements (doc w') !! "tcr" = Some "93%" ∧
        elements (doc w') !! "uptime" = None ∧
        elements (doc w') !! "velocity" = elements (doc opened) !! "velocity".
Proof.
  destruct (system_metrics_each_shown (num := Z)
              [("tcr", JStr "93%"); ("uptime", JNum 7%Z)] opened)
    as (w' & Hrun & (_ & _ & _ & _ & _ & _ & He) & Ht).
  - apply (bool_decide_unpack _). vm_compute. reflexivity.
  - not_in_list.
  - intros id v [[= -> ->]|[[= -> ->]|[]%elem_of_nil]%elem_of_cons]%elem_of_cons;
      reflexivity.
  - exists w'. split; [exact Hrun|]. split; [|split].
    + rewrite (Ht "tcr" (JStr "93%")); [vm_compute; reflexivity | by left | done].
    + assert (textContent <$> elements (doc w') !! "uptime" = None) as Hnone.
      { rewrite (Ht "uptime" (JNum 7%Z)); [vm_compute; reflexivity | | done].
        right. by left. }
      by destruct (elements (doc w') !! "uptime").
    + apply He. not_in_list.
Defined.

(** ** The connection status *)

Global Instance sameStatus_preorder : PreOrder sameStatus.
Proof.
  split; [by intros w|]. unfold sameStatus.
  intros w1 w2 w3 [? ?] [? ?]. split; congruence.
Qed.

Section Status.
Context {num : Type} `{JsNumber num}.

(** The status text and the indicator have no id, no [data-agent-id], no
    [data-task-id] and no [data-stage]: no message reaches them. *)
Lemma onmessage_sameStatus (f : Frame num) : preserves sameStatus (onmessage f).
Proof.
  unfold onmessage, handleMessage, handleInitialData, whenTruthy, updateSystemMetrics,
    updateAgentMetrics, updateRecentTasks.
  repeat ((apply preserves_try_catch; [tc_solve| |intros ?])
          || (apply preserves_forEach; [tc_solve | intros ? _])
          || preserves_step);
    intros w; unfold sameStatus, assignText; simpl; try case_bool_decide; done.
Qed.

Lemma step_claimsConnection (page : Prop) w (e : Event num) w' :
  one_live_socket w → (claimsConnection page w → socketUp w) →
  step w e = Some w' → claimsConnection page w' → socketUp w'.
Proof.
  intros [Hlive Hlen] Hinv Hstep Hclaim.
  destruct e as [i|i f|i|i| | | |]; simpl in Hstep.
  - destruct (sockets w !! i) as [[]|] eqn:Hi; simplify_eq.
    destruct (Hlive i CONNECTING Hi) as [Hws _]; [done|].
    destruct (exec_onopen (set_sockets <[i:=OPEN]> w)) as (c & d & s & ->).
    exists i. split; [done|]. left. simpl.
    apply list_lookup_insert_eq. by eapply lookup_lt_Some.
  - destruct (sockets w !! i) as [[]|]; simplify_eq.
    pose proof (keeps_onmessage f w) as Hk. unfold session in Hk.
    injection Hk as Hc Hs _ _ _ _.
    destruct (onmessage_sameStatus f w) as [Ht Hind].
    unfold socketUp, exec. rewrite Hc, Hs. apply Hinv.
    unfold claimsConnection, showsOnline, exec in Hclaim.
    by rewrite Hc, Ht, Hind in Hclaim.
  - assert (w' = exec onerror w) as ->.
    { by destruct (sockets w !! i) as [[]|]; simplify_eq. }
    destruct Hclaim as [Hshown|Hflag]; [|done].
    apply Hinv. by left.
  - assert (w' = exec onclose (set_sockets <[i:=CLOSED]> w)) as ->.
    { by destruct (sockets w !! i) as [[]|]; simplify_eq. }
    exfalso. rewrite exec_onclose_eq in Hclaim. simpl in Hclaim.
    revert Hclaim. case_bool_decide; unfold claimsConnection, showsOnline; simpl;
      (intros [[_ [Hshown|Hshown]]|Hflag];
       [by destruct (statusText (doc w)) | by destruct (indicator (doc w)) | done]).
  - destruct (reconnectTimers w) as [|t rest] eqn:Ht; simplify_eq.
    exfalso. rewrite exec_connect_eq in Hclaim.
    assert (claimsConnection page w) as Hbefore.
    { simpl in Hclaim. by destruct (urlAccepted w). }
    destruct (Hinv Hbefore) as (i & _ & [Hi|Hi]);
      by destruct (Hlive i _ Hi) as [_ ?].
  - destruct (intervalTimer w); simplify_eq.
    destruct (exec_pingTick w) as (s & c & Heq). rewrite Heq in *. by apply Hinv.
  - destruct (flashTimers w); simplify_eq. by apply Hinv.
  - simplify_eq.
    destruct (exec_disconnect w) as (Hc & Hs & _ & _ & Hdoc & _).
    unfold claimsConnection, socketUp in *. rewrite Hc, Hdoc in Hclaim.
    destruct (Hinv Hclaim) as (i & Hws & Hi). exists i. rewrite Hc, Hs, Hws.
    split; [done|]. right. rewrite list_lookup_alter_eq.
    by destruct Hi as [-> | ->].
Qed.

(** X14.  The client never takes a dead connection for a live one.  After
    any run of a client, if its flag [isConnected] is set, its current
    socket is open, or closing after a call of [disconnect].  The same holds
    of what the page shows, when the page did not say online before the
    client was created: if its status text says "System Online" or its
    indicator is active, the current socket is open or closing. *)
Theorem online_only_while_open url d accepted (es : list (Event num)) w :
  run (newClient url d accepted) es = Some w →
  (isConnected (client w) = true → socketUp w) ∧
  (¬ showsOnline d → showsOnline (doc w) → socketUp w).
Proof.
  intros Hrun.
  assert (∀ w0, one_live_socket w0 →
                (claimsConnection (¬ showsOnline d) w0 → socketUp w0) →
                run w0 es = Some w →
                claimsConnection (¬ showsOnline d) w → socketUp w) as Hruns.
  { clear Hrun. induction es as [|e es IH]; intros w0 Hlive Hinv Hrun; simpl in Hrun.
    - by simplify_eq.
    - destruct (step w0 e) as [w1|] eqn:Hstep; [|done].
      apply (IH w1); [by eapply step_one_live_socket| |done].
      by apply (step_claimsConnection _ w0 e). }
  specialize (Hruns _ (newClient_one_live_socket url d accepted)).
  assert (claimsConnection (¬ showsOnline d) w → socketUp w) as Hinv.
  { apply Hruns; [|done].
    intros [[Hoffline Hshown]|Hflag]; [|by destruct accepted].
    destruct Hoffline. by destruct accepted. }
  split.
  - intros Hflag. apply Hinv. by right.
  - intros Hoffline Hshown. apply Hinv. by left.
Qed.
End Status.

(** X14, on the dashboard: the socket is open once the client is connected;
    and on the page that says connecting, once the page says online. *)
Lemma online_only_while_open_witness :
  socketUp opened ∧
  ∀ w, run (num := Z) (newClient "ws://localhost:8765" offlinePage true) [SockOpen 0]
       = Some w → socketUp w.
Proof.
  split.
  - destruct (online_only_while_open (num := Z) "ws://localhost:8765" dashboard true
                [SockOpen 0] opened) as [Hflag _]; [vm_compute; reflexivity|].
    apply Hflag. reflexivity.
  - intros w Hrun.
    destruct (online_only_while_open (num := Z) _ _ _ _ w Hrun) as [_ Hpage].
    apply Hpage.
    + intros [Hshown|Hshown]; vm_compute in Hshown; done.
    + vm_compute in Hrun. injection Hrun as <-. left. reflexivity.
Defined.
